(** * microRNA activity maps: the pipeline of [main.py]

    A shallow embedding of [src/main.py]: the command-line flags, the
    loader, the scoring step, the two postprocessors and the end-to-end
    [compute], over an explicit model of the calls the module makes into
    [utils], [logging], [multiprocessing] and [absl]. *)

From Stdlib Require Import String Ascii List ZArith Bool Arith Lia Permutation.
Import ListNotations.
Open Scope string_scope.
Open Scope list_scope.

Set Implicit Arguments.

(** ** Python values *)

(** Truthiness, as [if x:], [not x] and [x or y] test it. *)
Class Truthy (A : Type) := truthy : A -> bool.

#[global] Instance Truthy_bool : Truthy bool := fun b => b.
#[global] Instance Truthy_int : Truthy Z := fun z => negb (z =? 0)%Z.
#[global] Instance Truthy_str : Truthy string := fun s => negb (s =? "").
#[global] Instance Truthy_list {A} : Truthy (list A) :=
  fun l => match l with [] => false | _ :: _ => true end.
(** [Optional[T]]: [None] is falsy, any other value tests as itself. *)
#[global] Instance Truthy_Optional {A} `{Truthy A} : Truthy (option A) :=
  fun o => match o with None => false | Some a => truthy a end.

(** A [str] object where the code compares with [is]: the object's
    address and its characters. *)
Record str_obj : Type := Str { oid : nat; chars : string }.

#[global] Instance Truthy_str_obj : Truthy str_obj := fun o => truthy (chars o).

(** [a == b] on strings compares the characters. *)
Definition py_eq (a b : str_obj) : bool := chars a =? chars b.

(** [a is b]: the same object.  One object has one content, so two
    references to the same address also agree on the characters. *)
Definition py_is (a b : str_obj) : bool :=
  Nat.eqb (oid a) (oid b) && (chars a =? chars b).

(** The two comparisons where the left operand is [Optional[str]];
    [None] is neither equal nor identical to a string. *)
Definition opt_eq (a : option str_obj) (b : str_obj) : bool :=
  match a with Some o => py_eq o b | None => false end.

Definition opt_is (a : option str_obj) (b : str_obj) : bool :=
  match a with Some o => py_is o b | None => false end.

(** A parameter that has a default: the caller leaves it out or gives it. *)
Definition arg (A : Type) : Type := option A.
Definition omitted {A} : arg A := None.
Definition given {A} (a : A) : arg A := Some a.
Definition or_default {A} (a : arg A) (d : A) : A :=
  match a with Some x => x | None => d end.
Infix "?:" := or_default (at level 40, no associativity).

(** ** [os.path.join] (posixpath), two components *)

Fixpoint endswith_sep (s : string) : bool :=
  match s with
  | EmptyString => false
  | String c EmptyString => Ascii.eqb c "/"
  | String _ rest => endswith_sep rest
  end.

Definition os_path_join (a b : string) : string :=
  if String.prefix "/" b then b
  else if negb (truthy a) || endswith_sep a then (a ++ b)%string
  else (a ++ "/" ++ b)%string.

(** [sep.join(items)] *)
Definition str_join (sep : string) (items : list string) : string :=
  String.concat sep items.

(** [value in items] on a list of strings. *)
Definition str_in (value : string) (items : list string) : bool :=
  existsb (String.eqb value) items.

(** ** Exceptions *)

Inductive exn : Type :=
| UsageError (args : list string)
    (* utils.UsageError, with the arguments it is built from *)
| IllegalFlagValueError (messages : list (string * list string))
    (* absl.flags: one (flag name, validator message) per rejected flag *)
| TypeError (args : list string)
| Exception (name : string) (args : list string).
    (* any other exception a collaborator raises *)

(** ** Constants *)

(** Modelled from the spec: [constants.py] is not among the sources.  The
    spatial data type of the spec carries the string that the docstrings
    of [main.py] give for [data_type] ('spatial' or 'scRNAseq').  The
    constant is one object of the [constants] module. *)
Definition _DATA_TYPE_SPATIAL : str_obj := Str 1 "spatial".

(** Modelled from the spec: [constants.py] is not among the sources.  The
    single-cell data type, with the other string of the docstrings; a
    second object of the [constants] module. *)
Definition _DATA_TYPE_SINGLE_CELL : str_obj := Str 2 "scRNAseq".

(** Modelled from the spec: what [utils.check_data_type] returns
    ([detect_type(path) -> {spatial, single_cell}]): one of the two
    supported types, as the constant of that type. *)
Inductive data_kind : Type := spatial | single_cell.

Definition kind_const (k : data_kind) : str_obj :=
  match k with
  | spatial => _DATA_TYPE_SPATIAL
  | single_cell => _DATA_TYPE_SINGLE_CELL
  end.

(** The types of the values that [main.py] only passes along. *)
Class Types : Type := {
  DataFrame : Type;   (* pandas tables: counts, p-values, coordinates *)
  Ranking : Type;     (* what sort_activity_* return *)
  Float : Type;       (* Python floats: thresh, time() *)
  World : Type        (* files, figures, clock, random state *)
}.

(** The remaining constants of [constants.py], taken as parameters. *)
Class Constants `{Types} : Type := {
  _SPECIES_HOMO_SAPIENS : string;
  _SUPPORTED_SPECIES : list string;
  _DRAW_TOP_10 : string;
  _SUPPORTED_DRAW : list string;
  _ACTIVITY_THRESH : Float
}.

(** ** Calls, frames and events *)

Inductive level : Type := DEBUG | INFO.

Section Events.
Context `{Types}.

(** The calls [main.py] makes into [utils] and [multiprocessing], with
    their arguments; the index is the type of the returned value. *)
Inductive call : Type -> Type :=
| check_data_type (data_path : string) : call data_kind
| visium_loader (data_path : string) : call DataFrame
| scRNAseq_preprocess_loader (dataset_name data_path : string) : call DataFrame
| scRNAseq_loader (data_path : string) : call DataFrame
| normalize_counts (counts : DataFrame) : call DataFrame
| cpu_count : call Z
| mir_data_loading (miR_list : option (list string)) (species : option string)
    (debug : option bool) : call (DataFrame * list string)
| compute_mir_activity (counts_norm : DataFrame) (miR_list : list string)
    (mti_data : DataFrame) (results_path : string) (cpus : Z)
    (debug : option bool) : call DataFrame
| get_spatial_coors (data_path : string) (counts_norm : DataFrame) : call DataFrame
| sort_activity_spatial (miR_activity_pvals : DataFrame) (thresh : option Float)
    (spots : Z) (results_path dataset_name : string) : call Ranking
| get_figure_list (miR_list : list string) (miR_figures : option string)
    (mir_activity_list : Ranking) : call (list string)
| produce_spatial_maps (miR_list_figures : list string)
    (miR_activity_pvals spatial_coors : DataFrame)
    (results_path dataset_name : string) (mir_activity_list : Ranking) : call unit
| generate_umap (counts miR_activity_pvals : DataFrame)
    (populations : option (list string)) : call DataFrame
| sort_activity_sc (miR_activity_pvals : DataFrame)
    (populations : option (list string)) : call Ranking
| plot_sc (miR_list_figures : list string) (enriched_counts : DataFrame)
    (results_path dataset_name : string) (mir_activity_list : Ranking)
    (miR_activity_pvals : DataFrame) (populations : option (list string)) : call unit.

(** The functions of [main.py], with the values their parameters are
    bound to when the body starts. *)
Inductive frame : Type :=
| f_data_handling (data_path dataset_name : string) (data_type : option str_obj)
    (preprocess : option bool)
| f_computing_mir_activity (counts_norm : DataFrame) (results_path : string)
    (miR_list : option (list string)) (cpus : option Z) (species : option string)
    (debug : option bool)
| f_mir_post_processing_spatial (data_path : string)
    (counts_norm miR_activity_pvals : DataFrame) (miR_list : list string)
    (results_path dataset_name : string) (data_type : option str_obj)
    (miR_figures : option string) (thresh : option Float)
| f_mir_post_processing_sc (data_path : string)
    (counts miR_activity_pvals : DataFrame) (miR_list : list string)
    (results_path dataset_name : string) (data_type : option str_obj)
    (miR_figures : option string) (populations : option (list string))
| f_compute (data_path dataset_name : string) (miR_list : option (list string))
    (cpus : option Z) (results_path : option string) (species : option string)
    (miR_figures : option string) (preprocess : option bool)
    (thresh : option Float) (populations : option (list string))
    (debug : option bool)
| f_main.

Inductive log_arg : Type :=
| a_str (s : string)
| a_int (z : Z)
| a_float (f : Float).

(** What a run does, in order. *)
Inductive event : Type :=
| Ecall {X : Type} (c : call X)
| Eenter (f : frame)
| Eset_verbosity (l : level)
| Elog (l : level) (fmt : string) (args : list log_arg).

End Events.

(** The environment the module runs in: how each call answers (a value
    or an exception, and the world it leaves), the clock of [time()],
    [DataFrame.shape[0]], and the float arithmetic of the timing line. *)
Class Runtime `{Types} : Type := {
  handle : forall X, call X -> World -> World * (exn + X);
  clock : World -> Float;
  shape0 : DataFrame -> Z;
  float_sub : Float -> Float -> Float;
  float_floordiv : Float -> Z -> Float
}.

(** ** The monad of the embedding: world passing, events, exceptions *)

Section Monad.
Context `{Types} `{!Runtime}.

Definition M (A : Type) : Type := World -> World * list event * (exn + A).

Definition ret {A} (a : A) : M A := fun w => (w, [], inr a).

Definition raise {A} (e : exn) : M A := fun w => (w, [], inl e).

Definition bind {A B} (m : M A) (f : A -> M B) : M B := fun w =>
  match m w with
  | (w1, t1, inl e) => (w1, t1, inl e)
  | (w1, t1, inr a) =>
      match f a w1 with (w2, t2, r) => (w2, t1 ++ t2, r) end
  end.

Definition emit (e : event) : M unit := fun w => (w, [e], inr tt).

(** A call into a collaborator. *)
Definition ext {X} (c : call X) : M X := fun w =>
  let (w', r) := handle c w in (w', [Ecall c], r).

(** [time()] *)
Definition time : M Float := fun w => (w, [], inr (clock w)).

Definition enter (f : frame) : M unit := emit (Eenter f).
Definition logging_set_verbosity (l : level) : M unit := emit (Eset_verbosity l).
Definition logging_info (fmt : string) (args : list log_arg) : M unit :=
  emit (Elog INFO fmt args).
Definition logging_debug (fmt : string) (args : list log_arg) : M unit :=
  emit (Elog DEBUG fmt args).

(** The parts of an outcome. *)
Definition world_of {A} (o : World * list event * (exn + A)) : World := fst (fst o).
Definition events_of {A} (o : World * list event * (exn + A)) : list event :=
  snd (fst o).
Definition result_of {A} (o : World * list event * (exn + A)) : exn + A := snd o.

End Monad.

Declare Scope py_scope.
Delimit Scope py_scope with py.
Notation "x <- m ;; k" := (bind m (fun x => k))
  (at level 61, m at next level, right associativity) : py_scope.
Notation "' p <- m ;; k" := (bind m (fun p => k))
  (at level 61, p pattern, m at next level, right associativity) : py_scope.
Notation "m ;; k" := (bind m (fun _ => k))
  (at level 61, right associativity) : py_scope.
Open Scope py_scope.

(** ** The functions of [main.py] *)

Section Program.
Context `{Types} `{!Constants} `{!Runtime}.

(** [data_handling]: loading, preprocessing (if needed) and normalizing. *)
Definition data_handling (data_path dataset_name : string)
    (data_type : option str_obj) (preprocess : arg (option bool))
    : M (DataFrame * DataFrame) :=
  let preprocess := preprocess ?: Some true in
  enter (f_data_handling data_path dataset_name data_type preprocess) ;;
  data_type <-
    (if negb (truthy data_type)
     then k <- ext (check_data_type data_path) ;; ret (Some (kind_const k))
     else ret data_type) ;;
  counts <-
    (if opt_eq data_type _DATA_TYPE_SPATIAL
     then ext (visium_loader data_path)
     else if truthy preprocess
          then ext (scRNAseq_preprocess_loader dataset_name data_path)
          else ext (scRNAseq_loader data_path)) ;;
  counts_norm <- ext (normalize_counts counts) ;;
  ret (counts_norm, counts).

(** [computing_mir_activity]: the scoring step. *)
Definition computing_mir_activity (counts_norm : DataFrame)
    (results_path : string) (miR_list : option (list string))
    (cpus : option Z) (species : arg (option string))
    (debug : arg (option bool)) : M (list string * DataFrame) :=
  let species := species ?: Some _SPECIES_HOMO_SAPIENS in
  let debug := debug ?: Some false in
  enter (f_computing_mir_activity counts_norm results_path miR_list cpus
           species debug) ;;
  (* cpus = cpus or mp.cpu_count() *)
  cpus <-
    (match cpus with
     | Some k => if truthy k then ret k else ext cpu_count
     | None => ext cpu_count
     end) ;;
  logging_info "Using %i cpus" [a_int cpus] ;;
  '(mti_data, miR_list) <- ext (mir_data_loading miR_list species debug) ;;
  start <- time ;;
  miR_activity_pvals <-
    ext (compute_mir_activity counts_norm miR_list mti_data results_path
           cpus debug) ;;
  stop <- time ;;
  logging_info "Computation time: %f minutes"
    [a_float (float_floordiv (float_sub stop start) 60)] ;;
  ret (miR_list, miR_activity_pvals).

(** [mir_post_processing_spatial]: post processing on spatial data. *)
Definition mir_post_processing_spatial (data_path : string)
    (counts_norm miR_activity_pvals : DataFrame) (miR_list : list string)
    (results_path dataset_name : string) (data_type : option str_obj)
    (miR_figures : arg (option string)) (thresh : arg (option Float))
    : M unit :=
  let miR_figures := miR_figures ?: Some _DRAW_TOP_10 in
  let thresh := thresh ?: Some _ACTIVITY_THRESH in
  enter (f_mir_post_processing_spatial data_path counts_norm
           miR_activity_pvals miR_list results_path dataset_name data_type
           miR_figures thresh) ;;
  data_type <-
    (if negb (truthy data_type)
     then k <- ext (check_data_type data_path) ;; ret (Some (kind_const k))
     else ret data_type) ;;
  (if negb (opt_is data_type _DATA_TYPE_SPATIAL)
   then raise (UsageError
                 ["No spatial data was found for post-processing in %s";
                  data_path])
   else ret tt) ;;
  logging_info "Generating activity map figures" [] ;;
  spatial_coors <- ext (get_spatial_coors data_path counts_norm) ;;
  let spots := shape0 spatial_coors in
  mir_activity_list <-
    ext (sort_activity_spatial miR_activity_pvals thresh spots results_path
           dataset_name) ;;
  miR_list_figures <-
    ext (get_figure_list miR_list miR_figures mir_activity_list) ;;
  ext (produce_spatial_maps miR_list_figures miR_activity_pvals
         spatial_coors results_path dataset_name mir_activity_list).

(** [mir_post_processing_sc]: post processing on scRNAseq data. *)
Definition mir_post_processing_sc (data_path : string)
    (counts miR_activity_pvals : DataFrame) (miR_list : list string)
    (results_path dataset_name : string) (data_type : option str_obj)
    (miR_figures : arg (option string))
    (populations : arg (option (list string))) : M unit :=
  let miR_figures := miR_figures ?: Some _DRAW_TOP_10 in
  let populations := populations ?: None in
  enter (f_mir_post_processing_sc data_path counts miR_activity_pvals
           miR_list results_path dataset_name data_type miR_figures
           populations) ;;
  data_type <-
    (if negb (truthy data_type)
     then k <- ext (check_data_type data_path) ;; ret (Some (kind_const k))
     else ret data_type) ;;
  (if negb (opt_is data_type _DATA_TYPE_SINGLE_CELL)
   then raise (UsageError
                 ["No scRNAseq data was found for post-processing in %s";
                  data_path])
   else ret tt) ;;
  logging_info "Single cell post processing" [] ;;
  enriched_counts <- ext (generate_umap counts miR_activity_pvals populations) ;;
  mir_activity_list <- ext (sort_activity_sc miR_activity_pvals populations) ;;
  miR_list_figures <-
    ext (get_figure_list miR_list miR_figures mir_activity_list) ;;
  ext (plot_sc miR_list_figures enriched_counts results_path dataset_name
         mir_activity_list miR_activity_pvals populations).

(** [compute]: the end-to-end computation. *)
Definition compute (data_path dataset_name : string)
    (miR_list : option (list string)) (cpus : option Z)
    (results_path : option string) (species : arg (option string))
    (miR_figures : arg (option string)) (preprocess : arg (option bool))
    (thresh : arg (option Float)) (populations : arg (option (list string)))
    (debug : arg (option bool)) : M unit :=
  let species := species ?: Some _SPECIES_HOMO_SAPIENS in
  let miR_figures := miR_figures ?: Some _DRAW_TOP_10 in
  let preprocess := preprocess ?: Some true in
  let thresh := thresh ?: Some _ACTIVITY_THRESH in
  let populations := populations ?: None in
  let debug := debug ?: Some false in
  enter (f_compute data_path dataset_name miR_list cpus results_path species
           miR_figures preprocess thresh populations debug) ;;
  (if truthy debug
   then logging_set_verbosity DEBUG ;; logging_debug "Debug mode is on" []
   else logging_set_verbosity INFO) ;;
  logging_info "Dataset name: %s" [a_str dataset_name] ;;
  logging_info "Path to dataset: %s" [a_str data_path] ;;
  let results_path :=
    match results_path with
    | Some p => if truthy p then os_path_join p dataset_name
                else os_path_join data_path "results"
    | None => os_path_join data_path "results"
    end in
  logging_info "Results path: %s" [a_str results_path] ;;
  data_type <- ext (check_data_type data_path) ;;
  let data_type := kind_const data_type in
  '(counts_norm, counts) <-
    data_handling data_path dataset_name (Some data_type) (given preprocess) ;;
  '(miR_list, miR_activity_pvals) <-
    computing_mir_activity counts_norm results_path miR_list cpus
      (given species) (given debug) ;;
  (if py_eq data_type _DATA_TYPE_SPATIAL
   then mir_post_processing_spatial data_path counts_norm miR_activity_pvals
          miR_list results_path dataset_name (Some data_type)
          (given miR_figures) (given thresh)
   else mir_post_processing_sc data_path counts miR_activity_pvals
          miR_list results_path dataset_name (Some data_type)
          (given miR_figures) (given populations)) ;;
  logging_info "Done." [].

End Program.

(** ** The command line: [absl.flags] and [absl.app.run] *)

(** The values of the flags that lines 23-61 define. *)
Record flag_values `{Types} : Type := {
  FLAGS_cpus : option Z;
  FLAGS_data_path : option string;
  FLAGS_dataset_name : option string;
  FLAGS_debug : bool;
  FLAGS_miR_figures : string;
  FLAGS_miR_list : option (list string);
  FLAGS_populations : option (list string);
  FLAGS_preprocess : bool;
  FLAGS_results_path : option string;
  FLAGS_species : string;
  FLAGS_thresh : Float
}.
Arguments Build_flag_values {_}.

Section CommandLine.
Context `{Types} `{!Constants} `{!Runtime}.

(** The defaults of the [flags.DEFINE_*] lines. *)
Definition FLAGS_defaults : flag_values := {|
  FLAGS_cpus := None;
  FLAGS_data_path := None;
  FLAGS_dataset_name := None;
  FLAGS_debug := false;
  FLAGS_miR_figures := _DRAW_TOP_10;
  FLAGS_miR_list := None;
  FLAGS_populations := None;
  FLAGS_preprocess := false;
  FLAGS_results_path := None;
  FLAGS_species := _SPECIES_HOMO_SAPIENS;
  FLAGS_thresh := _ACTIVITY_THRESH
|}.

(** One flag given on the command line, its value already parsed to the
    flag's type. *)
Inductive assignment : Type :=
| set_cpus (v : Z)
| set_data_path (v : string)
| set_dataset_name (v : string)
| set_debug (v : bool)
| set_miR_figures (v : string)
| set_miR_list (v : list string)
| set_populations (v : list string)
| set_preprocess (v : bool)
| set_results_path (v : string)
| set_species (v : string)
| set_thresh (v : Float).

Definition assign (F : flag_values) (a : assignment) : flag_values :=
  let '(Build_flag_values cpus data_path dataset_name debug miR_figures
          miR_list populations preprocess results_path species thresh) := F in
  match a with
  | set_cpus v =>
      Build_flag_values (Some v) data_path dataset_name debug miR_figures
        miR_list populations preprocess results_path species thresh
  | set_data_path v =>
      Build_flag_values cpus (Some v) dataset_name debug miR_figures
        miR_list populations preprocess results_path species thresh
  | set_dataset_name v =>
      Build_flag_values cpus data_path (Some v) debug miR_figures
        miR_list populations preprocess results_path species thresh
  | set_debug v =>
      Build_flag_values cpus data_path dataset_name v miR_figures
        miR_list populations preprocess results_path species thresh
  | set_miR_figures v =>
      Build_flag_values cpus data_path dataset_name debug v
        miR_list populations preprocess results_path species thresh
  | set_miR_list v =>
      Build_flag_values cpus data_path dataset_name debug miR_figures
        (Some v) populations preprocess results_path species thresh
  | set_populations v =>
      Build_flag_values cpus data_path dataset_name debug miR_figures
        miR_list (Some v) preprocess results_path species thresh
  | set_preprocess v =>
      Build_flag_values cpus data_path dataset_name debug miR_figures
        miR_list populations v results_path species thresh
  | set_results_path v =>
      Build_flag_values cpus data_path dataset_name debug miR_figures
        miR_list populations preprocess (Some v) species thresh
  | set_species v =>
      Build_flag_values cpus data_path dataset_name debug miR_figures
        miR_list populations preprocess results_path v thresh
  | set_thresh v =>
      Build_flag_values cpus data_path dataset_name debug miR_figures
        miR_list populations preprocess results_path species v
  end.

(** Parsing starts from the defaults; a later occurrence of a flag wins. *)
Definition parse_flags (argv : list assignment) : flag_values :=
  fold_left assign argv FLAGS_defaults.

Definition is_not_None {A} (o : option A) : bool :=
  match o with Some _ => true | None => false end.

(** A registered validator: the flag, its checker and its message.  The
    two [register_validator] calls pass a pair as message, and the pair
    is kept as it is. *)
Record validator : Type := {
  flag_name : string;
  checker : flag_values -> bool;
  message : list string
}.

(** Lines 63-73, in registration order. *)
Definition validators : list validator := [
  {| flag_name := "species";
     checker := fun F => str_in (FLAGS_species F) _SUPPORTED_SPECIES;
     message := ["Either %s are supported.";
                 str_join " or " _SUPPORTED_SPECIES] |};
  {| flag_name := "miR_figures";
     checker := fun F => str_in (FLAGS_miR_figures F) _SUPPORTED_DRAW;
     message := ["Either %s are supported.";
                 str_join " or " _SUPPORTED_DRAW] |};
  {| flag_name := "dataset_name";
     checker := fun F => is_not_None (FLAGS_dataset_name F);
     message := ["Flag --dataset_name must have a value other than None."] |};
  {| flag_name := "data_path";
     checker := fun F => is_not_None (FLAGS_data_path F);
     message := ["Flag --data_path must have a value other than None."] |}
].

(** [FlagValues.validate_all_flags]: every validator runs, in
    registration order, and the messages of those that fail are
    collected. *)
Definition validate_all_flags (F : flag_values) : list (string * list string) :=
  map (fun v => (flag_name v, message v))
      (filter (fun v => negb (checker v F)) validators).

(** [main] *)
Definition main (FLAGS : flag_values) : M unit :=
  enter f_main ;;
  match FLAGS_data_path FLAGS, FLAGS_dataset_name FLAGS with
  | Some data_path, Some dataset_name =>
      compute data_path dataset_name (FLAGS_miR_list FLAGS) (FLAGS_cpus FLAGS)
        (FLAGS_results_path FLAGS)
        (given (Some (FLAGS_species FLAGS)))
        (given (Some (FLAGS_miR_figures FLAGS)))
        (given (Some (FLAGS_preprocess FLAGS)))
        (given (Some (FLAGS_thresh FLAGS)))
        (given (FLAGS_populations FLAGS))
        (given (Some (FLAGS_debug FLAGS)))
  | _, _ =>
      (* not reached from app_run: both flags are marked as required *)
      raise (TypeError ["expected str, not NoneType"])
  end.

(** [app.run(main)]: the flags are parsed and validated; a rejected flag
    ends the program with the flags error before [main] is called. *)
Definition app_run (argv : list assignment) : M unit :=
  let FLAGS := parse_flags argv in
  match validate_all_flags FLAGS with
  | [] => main FLAGS
  | messages => raise (IllegalFlagValueError messages)
  end.

End CommandLine.

(** ** The scoring engine

    [utils.compute_mir_activity] is not among the sources.  The
    definitions of this section follow sections 3, 4.2 and 5 of the
    specification.  The statistical test is a parameter (it also answers
    for a degenerate column, with its placeholder), and so is the
    sentinel. *)

Section ScoringEngine.
Variables (value pval : Type).
Variable sentinel : pval.
Variable test : list value -> list value -> pval.

(** Modelled from the spec: the count matrix of [utils], a 2-D table
    whose rows are genes and whose columns are cells or spots. *)
Record count_matrix : Type := {
  gene_index : list string;
  cell_index : list string;
  entry : string -> string -> value
}.

(** Modelled from the spec: the target catalog of [utils], a mapping from
    microRNA identifier to its target genes. *)
Definition target_catalog : Type := string -> list string.

(** Modelled from the spec: the activity result matrix that
    [utils.compute_mir_activity] returns, one row of p-values per
    microRNA, with the columns of the count matrix. *)
Definition result_matrix : Type := list (string * list pval).

(** Modelled from the spec: the target genes of [m] inside
    [utils.compute_mir_activity], "members of that microRNA's target set,
    intersected with genes present in the matrix". *)
Definition targets_in_matrix (M : count_matrix) (C : target_catalog)
    (m : string) : list string :=
  filter (fun g => str_in g (C m)) (gene_index M).

(** Modelled from the spec: the background genes of [m] in
    [utils.compute_mir_activity], "all remaining genes". *)
Definition background (M : count_matrix) (C : target_catalog)
    (m : string) : list string :=
  filter (fun g => negb (str_in g (C m))) (gene_index M).

(** Modelled from the spec: the score of one (microRNA, cell) pair in
    [utils.compute_mir_activity], the two-sample test on the values of
    the two partitions within that cell's column. *)
Definition score_cell (M : count_matrix) (C : target_catalog)
    (m cell : string) : pval :=
  test (map (fun g => entry M g cell) (targets_in_matrix M C m))
       (map (fun g => entry M g cell) (background M C m)).

(** Modelled from the spec: one row of [utils.compute_mir_activity]; a
    microRNA whose target set has zero overlap with the matrix's genes
    is recorded with the sentinel in every column. *)
Definition score_row (M : count_matrix) (C : target_catalog)
    (m : string) : list pval :=
  match targets_in_matrix M C m with
  | [] => map (fun _ => sentinel) (cell_index M)
  | _ :: _ => map (score_cell M C m) (cell_index M)
  end.

(** Modelled from the spec: one worker of [utils.compute_mir_activity],
    computing the rows of the microRNAs of its slice against the full
    matrix. *)
Definition worker (M : count_matrix) (C : target_catalog)
    (ms : list string) : result_matrix :=
  map (fun m => (m, score_row M C m)) ms.

(** Modelled from the spec: the static partition of
    [utils.compute_mir_activity], balanced by size: [k] slices of
    [ceil(n / k)] consecutive items. *)
Definition slice_size (n k : nat) : nat := (n + k - 1) / k.

(** Modelled from the spec: the slice that worker [i] of
    [utils.compute_mir_activity] owns. *)
Definition slice {A} (L : list A) (size i : nat) : list A :=
  firstn size (skipn (i * size) L).

(** Modelled from the spec: the fan-out of [utils.compute_mir_activity];
    the workers' outputs, keyed by slice index, in the order the workers
    finish. *)
Definition run_workers (M : count_matrix) (L : list string)
    (C : target_catalog) (k : nat) (finish_order : list nat)
    : list (nat * result_matrix) :=
  map (fun i => (i, worker M C (slice L (slice_size (length L) k) i)))
      finish_order.

(** Modelled from the spec: the output slice of index [i] among those
    that arrived in [utils.compute_mir_activity]. *)
Definition output_of (i : nat) (outputs : list (nat * result_matrix))
    : result_matrix :=
  match find (fun o => Nat.eqb (fst o) i) outputs with
  | Some o => snd o
  | None => []
  end.

(** Modelled from the spec: the fan-in of [utils.compute_mir_activity],
    "reassembled by indexed position, not by arrival order". *)
Definition reassemble (k : nat) (outputs : list (nat * result_matrix))
    : result_matrix :=
  flat_map (fun i => output_of i outputs) (seq 0 k).

(** Modelled from the spec: [utils.compute_mir_activity] with the order
    in which its workers finish made explicit. *)
Definition score_in_order (M : count_matrix) (L : list string)
    (C : target_catalog) (k : nat) (finish_order : list nat) : result_matrix :=
  reassemble k (run_workers M L C k finish_order).

(** Modelled from the spec: [utils.compute_mir_activity], as
    [score(counts_norm, microRNA_list, target_catalog, worker_count)]. *)
Definition score (M : count_matrix) (L : list string) (C : target_catalog)
    (k : nat) : result_matrix :=
  score_in_order M L C k (seq 0 k).

End ScoringEngine.

(** ** A sample environment

    A small concrete world to run the definitions in: tables are named by
    strings, the world is a clock that every collaborator call advances,
    a path under [/visium] holds spatial data, [/missing] holds nothing,
    and any other path holds single-cell data. *)

Definition sample_types : Types := {|
  DataFrame := string;
  Ranking := list string;
  Float := Z;
  World := nat
|}.

Definition sample_constants : @Constants sample_types :=
  @Build_Constants sample_types
    "homo_sapiens" ["homo_sapiens"; "mus_musculus"]
    "top_10" ["top_10"; "all"]
    5%Z.

Definition sample_handle (X : Type) (c : @call sample_types X) (w : nat)
    : nat * (exn + X) :=
  match c in call X return nat * (exn + X) with
  | check_data_type p =>
      (S w,
       if p =? "/missing" then inl (UsageError ["no data found in"; p])
       else if String.prefix "/visium" p then inr spatial
       else inr single_cell)
  | visium_loader p => (S w, inr ("visium:" ++ p)%string)
  | scRNAseq_preprocess_loader n p => (S w, inr ("merged:" ++ p)%string)
  | scRNAseq_loader p => (S w, inr ("table:" ++ p)%string)
  | normalize_counts c => (S w, inr ("norm:" ++ c)%string)
  | cpu_count => (S w, inr 8%Z)
  | mir_data_loading l sp dbg =>
      (S w, inr ("mti", match l with Some l => l | None => ["m1"; "m2"] end))
  | compute_mir_activity cn l mti rp cpus dbg => (S w, inr "pvals")
  | get_spatial_coors p cn => (S w, inr "coors")
  | sort_activity_spatial pv th spots rp n => (S w, inr ["m2"; "m1"])
  | get_figure_list l fig rk => (S w, inr rk)
  | produce_spatial_maps figs pv coors rp n rk => (S w, inr tt)
  | generate_umap c pv pops => (S w, inr "umap")
  | sort_activity_sc pv pops => (S w, inr ["m1"; "m2"])
  | plot_sc figs en rp n rk pv pops => (S w, inr tt)
  end.

Definition sample_runtime : @Runtime sample_types := {|
  handle := sample_handle;
  clock := fun w : nat => Z.of_nat w;
  shape0 := fun d : string => Z.of_nat (String.length d);
  float_sub := Z.sub;
  float_floordiv := Z.div
|}.

(** The end-to-end scenario of the specification: 5 genes, 4 cells,
    m1 -> {gene1, gene2}, m2 -> {gene5}, gene5 not in the matrix. *)
Definition sample_matrix : count_matrix nat := {|
  gene_index := ["gene1"; "gene2"; "gene3"; "gene4"; "gene6"];
  cell_index := ["c1"; "c2"; "c3"; "c4"];
  entry := fun g c => String.length g + String.length c
|}.

Definition sample_catalog : target_catalog := fun m =>
  if m =? "m1" then ["gene1"; "gene2"]
  else if m =? "m2" then ["gene5"]
  else [].

(** A stand-in for the test: the sizes of the two samples. *)
Definition sample_test (targets rest : list nat) : nat * nat :=
  (length targets, length rest).

(** ** Reading a run

    What the statements below observe of the events of a run. *)

Section Observations.
Context `{Types} `{!Runtime}.

Definition is_call (e : event) : bool :=
  match e with Ecall _ => true | _ => false end.

(** The collaborator calls of a run, in order. *)
Definition calls_of (t : list event) : list event := filter is_call t.

Definition is_check_data_type (e : event) : bool :=
  match e with
  | Ecall c => match c with check_data_type _ => true | _ => false end
  | _ => false
  end.

Definition n_check_data_type (t : list event) : nat :=
  length (filter is_check_data_type t).

(** The calls that load a count table. *)
Definition is_loader_call (e : event) : bool :=
  match e with
  | Ecall c =>
      match c with
      | visium_loader _ | scRNAseq_preprocess_loader _ _ | scRNAseq_loader _ => true
      | _ => false
      end
  | _ => false
  end.

Definition loader_calls (t : list event) : list event := filter is_loader_call t.

(** The calls that rank, select and draw: everything a postprocessor
    delegates. *)
Definition is_rendering_call (e : event) : bool :=
  match e with
  | Ecall c =>
      match c with
      | get_spatial_coors _ _ | sort_activity_spatial _ _ _ _ _
      | get_figure_list _ _ _ | produce_spatial_maps _ _ _ _ _ _
      | generate_umap _ _ _ | sort_activity_sc _ _ | plot_sc _ _ _ _ _ _ _ => true
      | _ => false
      end
  | _ => false
  end.

(** The postprocessor invocations of a run, with their arguments. *)
Definition postprocessor_frames (t : list event) : list frame :=
  flat_map (fun e =>
    match e with
    | Eenter (f_mir_post_processing_spatial _ _ _ _ _ _ _ _ _ as f)
    | Eenter (f_mir_post_processing_sc _ _ _ _ _ _ _ _ _ as f) => [f]
    | _ => []
    end) t.

Definition not_postprocessor (e : event) : bool :=
  match postprocessor_frames [e] with [] => true | _ :: _ => false end.

(** The [data_type] argument of every invocation that takes one. *)
Definition data_types_read (t : list event) : list (option str_obj) :=
  flat_map (fun e =>
    match e with
    | Eenter (f_data_handling _ _ dt _)
    | Eenter (f_mir_post_processing_spatial _ _ _ _ _ _ dt _ _)
    | Eenter (f_mir_post_processing_sc _ _ _ _ _ _ dt _ _) => [dt]
    | _ => []
    end) t.

(** The worker counts the scoring engine is invoked with. *)
Definition engine_cpus (t : list event) : list Z :=
  flat_map (fun e =>
    match e with
    | Ecall c =>
        match c with
        | compute_mir_activity _ _ _ _ cpus _ => [cpus]
        | _ => []
        end
    | _ => []
    end) t.

Definition n_cpu_count (t : list event) : nat :=
  length (filter (fun e =>
    match e with
    | Ecall c => match c with cpu_count => true | _ => false end
    | _ => false
    end) t).

Definition option_bool_eqb (q p : option bool) : bool :=
  match q, p with
  | Some a, Some b => Bool.eqb a b
  | None, None => true
  | _, _ => false
  end.

(** Wherever an invocation takes a [preprocess], it is [p]. *)
Definition reads_preprocess (p : option bool) (e : event) : bool :=
  match e with
  | Eenter (f_data_handling _ _ _ q)
  | Eenter (f_compute _ _ _ _ _ _ _ q _ _ _) => option_bool_eqb q p
  | _ => true
  end.

(** The event is not a call of the merging and subsampling loader. *)
Definition not_preprocess_loader (e : event) : bool :=
  match e with
  | Ecall c =>
      match c with scRNAseq_preprocess_loader _ _ => false | _ => true end
  | _ => true
  end.

(** Wherever an event carries a results path (a call or an invocation
    that takes one, and the log line that reports it), the path is [rp].
    The invocation of [compute] carries the caller's value and is not
    looked at. *)
Definition uses_results_path (rp : string) (e : event) : bool :=
  match e with
  | Ecall c =>
      match c with
      | compute_mir_activity _ _ _ p _ _ => p =? rp
      | sort_activity_spatial _ _ _ p _ => p =? rp
      | produce_spatial_maps _ _ _ p _ _ => p =? rp
      | plot_sc _ _ p _ _ _ _ => p =? rp
      | _ => true
      end
  | Eenter f =>
      match f with
      | f_computing_mir_activity _ p _ _ _ _ => p =? rp
      | f_mir_post_processing_spatial _ _ _ _ p _ _ _ _ => p =? rp
      | f_mir_post_processing_sc _ _ _ _ p _ _ _ _ => p =? rp
      | _ => true
      end
  | Elog _ fmt args =>
      if fmt =? "Results path: %s"
      then match args with [a_str p] => p =? rp | _ => false end
      else true
  | Eset_verbosity _ => true
  end.

(** The data type a function works with: the one it is given or, when
    that is missing, the one [check_data_type] detects.  With it, the
    world and the events of the detection; [None] when the detection
    raises. *)
Definition resolved_data_type (data_path : string)
    (data_type : option str_obj) (w : World)
    : option (World * list event * str_obj) :=
  match data_type with
  | Some o =>
      if truthy o then Some (w, [], o)
      else match handle (check_data_type data_path) w with
           | (w', inr k) => Some (w', [Ecall (check_data_type data_path)], kind_const k)
           | (_, inl _) => None
           end
  | None =>
      match handle (check_data_type data_path) w with
      | (w', inr k) => Some (w', [Ecall (check_data_type data_path)], kind_const k)
      | (_, inl _) => None
      end
  end.

(** Every event of [m], in every world, passes the test [P]. *)
Definition emits_only (P : event -> bool) {A} (m : M A) : Prop :=
  forall w, forallb P (events_of (m w)) = true.

Definition not_check_data_type (e : event) : bool := negb (is_check_data_type e).

Definition str_obj_eqb (a b : str_obj) : bool :=
  Nat.eqb (oid a) (oid b) && (chars a =? chars b).

(** Wherever an invocation takes a [data_type], it is the object [dt]. *)
Definition reads_data_type (dt : str_obj) (e : event) : bool :=
  match e with
  | Eenter (f_data_handling _ _ d _)
  | Eenter (f_mir_post_processing_spatial _ _ _ _ _ _ d _ _)
  | Eenter (f_mir_post_processing_sc _ _ _ _ _ _ d _ _) =>
      match d with Some o => str_obj_eqb o dt | None => false end
  | _ => true
  end.

End Observations.

(** The results path as the specification words it: with an explicit
    (non-empty) results path, [results_path/dataset_name]; otherwise
    [data_path/results]. *)
Definition spec_results_path (data_path dataset_name : string)
    (results_path : option string) : string :=
  match results_path with
  | None => os_path_join data_path "results"
  | Some p =>
      if p =? "" then os_path_join data_path "results"
      else os_path_join p dataset_name
  end.

(** No [--preprocess] / [--nopreprocess] on the command line. *)
Definition sets_preprocess `{Types} (a : assignment) : bool :=
  match a with set_preprocess _ => true | _ => false end.

(** ** Reading a run, continued *)

Section Outcomes.
Context `{Types} `{!Runtime}.

(** Whatever [m] raises satisfies [Q]. *)
Definition raises_only (Q : exn -> Prop) {A} (m : M A) : Prop :=
  forall w e, result_of (m w) = inl e -> Q e.

(** Every event of [m], in every world, satisfies [P]. *)
Definition always (P : event -> Prop) {A} (m : M A) : Prop :=
  forall w, Forall P (events_of (m w)).

(** The closing log line of [compute]. *)
Definition is_done (e : event) : bool :=
  match e with
  | Elog INFO fmt [] => fmt =? "Done."
  | _ => false
  end.

Definition not_done (e : event) : bool := negb (is_done e).

(** [m] logs the closing line last, and only there, exactly when it
    returns. *)
Definition ends_done {A} (m : M A) : Prop :=
  forall w,
    match result_of (m w) with
    | inr _ =>
        exists t, events_of (m w) = t ++ [Elog INFO "Done." []] /\
                  forallb not_done t = true
    | inl _ => forallb not_done (events_of (m w)) = true
    end.

(** The place of a collaborator call in the pipeline. *)
Definition call_stage (e : event) : option nat :=
  match e with
  | Ecall c =>
      Some match c with
           | check_data_type _ => 0
           | visium_loader _ | scRNAseq_preprocess_loader _ _
           | scRNAseq_loader _ => 1
           | normalize_counts _ => 2
           | cpu_count => 3
           | mir_data_loading _ _ _ => 4
           | compute_mir_activity _ _ _ _ _ _ => 5
           | get_spatial_coors _ _ | generate_umap _ _ _ => 6
           | sort_activity_spatial _ _ _ _ _ | sort_activity_sc _ _ => 7
           | get_figure_list _ _ _ => 8
           | produce_spatial_maps _ _ _ _ _ _ | plot_sc _ _ _ _ _ _ _ => 9
           end
  | _ => None
  end.

Definition stages (t : list event) : list nat :=
  flat_map (fun e => match call_stage e with Some n => [n] | None => [] end) t.

(** Strictly increasing, starting at [lo] or above. *)
Fixpoint increasing_from (lo : nat) (l : list nat) : bool :=
  match l with
  | [] => true
  | x :: rest => Nat.leb lo x && increasing_from (S x) rest
  end.

(** The calls of [m] are in pipeline order, within stages [lo .. hi-1]. *)
Definition staged (lo hi : nat) {A} (m : M A) : Prop :=
  forall w,
    increasing_from lo (stages (events_of (m w))) = true /\
    forallb (fun x => Nat.ltb x hi) (stages (events_of (m w))) = true.

(** The scoring engine calls of a run with the list they score. *)
Definition engine_lists (t : list event) : list (list string) :=
  flat_map (fun e =>
    match e with
    | Ecall c =>
        match c with
        | compute_mir_activity _ l _ _ _ _ => [l]
        | _ => []
        end
    | _ => []
    end) t.

(** The options of a run of [compute] are the ones the event carries,
    wherever a call takes one. *)
Definition carries_options (dp dn : string) (species miR_figures : option string)
    (thresh : option Float) (populations : option (list string))
    (debug : option bool) (e : event) : Prop :=
  match e with
  | Ecall c =>
      match c with
      | check_data_type p => p = dp
      | visium_loader p => p = dp
      | scRNAseq_preprocess_loader n p => n = dn /\ p = dp
      | scRNAseq_loader p => p = dp
      | mir_data_loading _ s d => s = species /\ d = debug
      | compute_mir_activity _ _ _ _ _ d => d = debug
      | get_spatial_coors p _ => p = dp
      | sort_activity_spatial _ th _ _ n => th = thresh /\ n = dn
      | get_figure_list _ f _ => f = miR_figures
      | produce_spatial_maps _ _ _ _ n _ => n = dn
      | generate_umap _ _ pops => pops = populations
      | sort_activity_sc _ pops => pops = populations
      | plot_sc _ _ _ n _ _ pops => n = dn /\ pops = populations
      | _ => True
      end
  | Eset_verbosity l => l = if truthy debug then DEBUG else INFO
  | _ => True
  end.

End Outcomes.

Definition sets_data_path `{Types} (a : assignment) : bool :=
  match a with set_data_path _ => true | _ => false end.

Definition sets_dataset_name `{Types} (a : assignment) : bool :=
  match a with set_dataset_name _ => true | _ => false end.


(** * Properties *)

(** ** Running the monad *)

Section Running.
Context `{Types} `{!Runtime}.

Lemma events_bind {A B} (m : M A) (f : A -> M B) (w : World) :
  events_of (bind m f w) =
  events_of (m w) ++
  match result_of (m w) with
  | inl _ => []
  | inr a => events_of (f a (world_of (m w)))
  end.
Proof.
  unfold bind, events_of, result_of, world_of.
  destruct (m w) as [[w1 t1] [e | a]]; simpl.
  - now rewrite app_nil_r.
  - now destruct (f a w1) as [[w2 t2] r].
Qed.

Lemma bind_returns {A B} (m : M A) (f : A -> M B) w w1 t1 a :
  m w = (w1, t1, inr a) ->
  bind m f w =
  (world_of (f a w1), t1 ++ events_of (f a w1), result_of (f a w1)).
Proof.
  intros E. unfold bind. rewrite E.
  now destruct (f a w1) as [[w2 t2] r].
Qed.

Lemma raise_bind {A B} (e : exn) (f : A -> M B) w :
  bind (raise e) f w = (w, [], inl e).
Proof. reflexivity. Qed.

Lemma emits_only_ret P {A} (a : A) : emits_only P (ret a).
Proof. now intros w. Qed.

Lemma emits_only_raise P {A} (e : exn) : emits_only P (raise (A := A) e).
Proof. now intros w. Qed.

Lemma emits_only_time P : emits_only P time.
Proof. now intros w. Qed.

Lemma emits_only_emit P (e : event) : P e = true -> emits_only P (emit e).
Proof. intros E w. simpl. now rewrite E. Qed.

Lemma emits_only_ext P {X} (c : call X) :
  P (Ecall c) = true -> emits_only P (ext c).
Proof.
  intros E w. unfold ext, events_of.
  destruct (handle c w) as [w' r]. simpl. now rewrite E.
Qed.

Lemma emits_only_bind P {A B} (m : M A) (f : A -> M B) :
  emits_only P m -> (forall a, emits_only P (f a)) -> emits_only P (bind m f).
Proof.
  intros Hm Hf w. rewrite events_bind, forallb_app, Hm. simpl.
  destruct (result_of (m w)); [reflexivity | apply Hf].
Qed.

Lemma emits_only_at P {A} (m : M A) w :
  emits_only P m -> forallb P (events_of (m w)) = true.
Proof. intros Hm. apply Hm. Qed.

Lemma bind_assoc {A B C} (m : M A) (g : A -> M B) (f : B -> M C) w :
  bind (bind m g) f w = bind m (fun x => bind (g x) f) w.
Proof.
  unfold bind.
  destruct (m w) as [[w1 t1] [e | a]]; [reflexivity |].
  destruct (g a w1) as [[w2 t2] [e | b]]; [reflexivity |].
  destruct (f b w2) as [[w3 t3] r]. now rewrite app_assoc.
Qed.

Lemma emit_bind {B} (e : event) (f : unit -> M B) w :
  bind (emit e) f w =
  (world_of (f tt w), e :: events_of (f tt w), result_of (f tt w)).
Proof. unfold bind, emit. now destruct (f tt w) as [[w2 t2] r]. Qed.

Lemma events_emit_bind {B} (e : event) (f : unit -> M B) w :
  events_of (bind (emit e) f w) = e :: events_of (f tt w).
Proof. now rewrite events_bind. Qed.

Lemma events_ext_bind {X B} (c : call X) (f : X -> M B) w :
  events_of (bind (ext c) f w) =
  Ecall c ::
  match snd (handle c w) with
  | inl _ => []
  | inr x => events_of (f x (fst (handle c w)))
  end.
Proof.
  rewrite events_bind. unfold ext, events_of, result_of, world_of.
  now destruct (handle c w) as [w' r].
Qed.

Lemma truthy_kind_const (k : data_kind) : truthy (Some (kind_const k)) = true.
Proof. now destruct k. Qed.

Lemma str_obj_eqb_refl (o : str_obj) : str_obj_eqb o o = true.
Proof. unfold str_obj_eqb. now rewrite Nat.eqb_refl, String.eqb_refl. Qed.

End Running.

(** The test of one event, by evaluation. *)
Ltac event_test :=
  first
    [ reflexivity
    | rewrite ?str_obj_eqb_refl, ?String.eqb_refl; reflexivity
    | simpl; rewrite ?str_obj_eqb_refl, ?String.eqb_refl; reflexivity ].

(** Steps through a program: one lemma per construct, the side
    conditions on single events by evaluation. *)
Create HintDb emits.

Ltac emits_step :=
  first
    [ solve [ auto with emits nocore ]
    | apply emits_only_ret
    | apply emits_only_raise
    | apply emits_only_time
    | apply emits_only_emit; event_test
    | apply emits_only_ext; event_test
    | apply emits_only_bind; [ | intros ? ]
    | match goal with
      | |- emits_only _ (if ?b then _ else _) => destruct b
      | |- emits_only _ (match ?x with _ => _ end) => destruct x
      | |- emits_only _ (let (_, _) := ?x in _) => destruct x
      end ].

Ltac emits := repeat emits_step.

(** ** The data type of a run *)

Section DataType.
Context `{Types} `{!Constants} `{!Runtime}.

Lemma n_check_data_type_cons (e : event) (t : list event) :
  n_check_data_type (e :: t) =
  (if is_check_data_type e then 1 else 0) + n_check_data_type t.
Proof. unfold n_check_data_type. simpl. now destruct (is_check_data_type e). Qed.

Lemma n_check_data_type_none (t : list event) :
  forallb not_check_data_type t = true -> n_check_data_type t = 0.
Proof.
  unfold n_check_data_type, not_check_data_type.
  induction t as [| e t IH]; simpl; [reflexivity |].
  destruct (is_check_data_type e); simpl; [discriminate | exact IH].
Qed.

(** With a data type in hand, no function of the module detects it again. *)
Lemma data_handling_keeps_type dp dn dt pre :
  truthy dt = true ->
  emits_only not_check_data_type (data_handling dp dn dt pre).
Proof. intros Ht. unfold data_handling. rewrite Ht. emits. Qed.

Lemma computing_mir_activity_no_detection cn rp ml cpus sp dbg :
  emits_only not_check_data_type (computing_mir_activity cn rp ml cpus sp dbg).
Proof. unfold computing_mir_activity. emits. Qed.

Lemma spatial_keeps_type dp cn pv ml rp dn dt fig th :
  truthy dt = true ->
  emits_only not_check_data_type
    (mir_post_processing_spatial dp cn pv ml rp dn dt fig th).
Proof. intros Ht. unfold mir_post_processing_spatial. rewrite Ht. emits. Qed.

Lemma sc_keeps_type dp c pv ml rp dn dt fig pops :
  truthy dt = true ->
  emits_only not_check_data_type
    (mir_post_processing_sc dp c pv ml rp dn dt fig pops).
Proof. intros Ht. unfold mir_post_processing_sc. rewrite Ht. emits. Qed.

Lemma data_handling_reads dt dp dn pre :
  truthy dt = true ->
  emits_only (reads_data_type dt) (data_handling dp dn (Some dt) pre).
Proof. intros Ht. unfold data_handling. emits. Qed.

Lemma computing_mir_activity_reads dt cn rp ml cpus sp dbg :
  emits_only (reads_data_type dt) (computing_mir_activity cn rp ml cpus sp dbg).
Proof. unfold computing_mir_activity. emits. Qed.

Lemma spatial_reads dt dp cn pv ml rp dn fig th :
  emits_only (reads_data_type dt)
    (mir_post_processing_spatial dp cn pv ml rp dn (Some dt) fig th).
Proof. unfold mir_post_processing_spatial. emits. Qed.

Lemma sc_reads dt dp c pv ml rp dn fig pops :
  emits_only (reads_data_type dt)
    (mir_post_processing_sc dp c pv ml rp dn (Some dt) fig pops).
Proof. unfold mir_post_processing_sc. emits. Qed.

#[local] Hint Resolve truthy_kind_const data_handling_keeps_type
  computing_mir_activity_no_detection spatial_keeps_type sc_keeps_type
  data_handling_reads computing_mir_activity_reads spatial_reads sc_reads
  : emits.

(** C5: in a run of [compute], [check_data_type] is called exactly once,
    whatever the collaborators answer; and every invocation that takes a
    data type ([data_handling], either postprocessor) receives the very
    object that this one call returned, so none of them detects again.
    When the call raises, no such invocation happens at all. *)
Theorem compute_detects_data_type_once :
  forall dp dn ml cpus rp sp fig pre th pops dbg (w : World),
    let t := events_of (compute dp dn ml cpus rp sp fig pre th pops dbg w) in
    n_check_data_type t = 1 /\
    (match snd (handle (check_data_type dp) w) with
     | inr k => forallb (reads_data_type (kind_const k)) t = true
     | inl _ => data_types_read t = []
     end).
Proof.
  intros. subst t. unfold compute.
  unfold enter, logging_info, logging_debug, logging_set_verbosity.
  rewrite events_emit_bind.
  destruct (truthy (dbg ?: Some false)); rewrite ?bind_assoc;
    rewrite !events_emit_bind, events_ext_bind;
    destruct (handle (check_data_type dp) w) as [w1 [e | k]];
    rewrite !n_check_data_type_cons; simpl;
    try (now split);
    (split;
     [ f_equal; apply n_check_data_type_none, emits_only_at; emits
     | apply emits_only_at; emits ]).
Qed.

End DataType.

(** ** The results path of a run *)

Section ResultsPath.
Context `{Types} `{!Constants} `{!Runtime}.

(** The branch of [compute] computes what the specification words. *)
Lemma results_path_as_specified dp dn (rp : option string) :
  match rp with
  | Some p => if truthy p then os_path_join p dn else os_path_join dp "results"
  | None => os_path_join dp "results"
  end = spec_results_path dp dn rp.
Proof.
  destruct rp as [p |]; [| reflexivity].
  unfold spec_results_path, truthy, Truthy_str.
  now destruct (p =? "").
Qed.

Lemma data_handling_results_path rp dp dn dt pre :
  emits_only (uses_results_path rp) (data_handling dp dn dt pre).
Proof. unfold data_handling. emits. Qed.

Lemma computing_mir_activity_results_path rp cn ml cpus sp dbg :
  emits_only (uses_results_path rp) (computing_mir_activity cn rp ml cpus sp dbg).
Proof. unfold computing_mir_activity. emits. Qed.

Lemma spatial_results_path rp dp cn pv ml dn dt fig th :
  emits_only (uses_results_path rp)
    (mir_post_processing_spatial dp cn pv ml rp dn dt fig th).
Proof. unfold mir_post_processing_spatial. emits. Qed.

Lemma sc_results_path rp dp c pv ml dn dt fig pops :
  emits_only (uses_results_path rp)
    (mir_post_processing_sc dp c pv ml rp dn dt fig pops).
Proof. unfold mir_post_processing_sc. emits. Qed.

#[local] Hint Resolve data_handling_results_path
  computing_mir_activity_results_path spatial_results_path sc_results_path
  : emits.

(** C2: the results path of a run of [compute] is
    [join(results_path, dataset_name)] when a non-empty results path is
    given and [join(data_path, 'results')] otherwise.  The run reports it
    in its log before it makes any collaborator call, and every call and
    invocation of the run that takes a results path takes this one.  On
    the two examples of the specification the path is [/out/ds1] and
    [/data/ds1/results]. *)
Theorem compute_resolves_results_path_first :
  forall dp dn ml cpus rp sp fig pre th pops dbg (w : World),
    let resolved := spec_results_path dp dn rp in
    let t := events_of (compute dp dn ml cpus rp sp fig pre th pops dbg w) in
    (exists before after,
        t = before ++ Elog INFO "Results path: %s" [a_str resolved] :: after /\
        calls_of before = []) /\
    forallb (uses_results_path resolved) t = true /\
    spec_results_path "/data/ds1" "ds1" (Some "/out") = "/out/ds1" /\
    spec_results_path "/data/ds1" "ds1" None = "/data/ds1/results".
Proof.
  intros. subst t resolved. unfold compute.
  rewrite results_path_as_specified.
  unfold enter, logging_info, logging_debug, logging_set_verbosity.
  rewrite events_emit_bind.
  destruct (truthy (dbg ?: Some false)); rewrite ?bind_assoc;
    rewrite !events_emit_bind, events_ext_bind.
  - split; [| split; [| split; reflexivity]].
    + eexists [_; _; _; _; _], _. split; reflexivity.
    + destruct (handle (check_data_type dp) w) as [w1 [e | k]]; simpl;
        rewrite String.eqb_refl; [reflexivity |].
      apply emits_only_at. emits.
  - split; [| split; [| split; reflexivity]].
    + eexists [_; _; _; _], _. split; reflexivity.
    + destruct (handle (check_data_type dp) w) as [w1 [e | k]]; simpl;
        rewrite String.eqb_refl; [reflexivity |].
      apply emits_only_at. emits.
Qed.

End ResultsPath.

(** ** The type guard of the postprocessors *)

Section TypeGuard.
Context `{Types} `{!Constants} `{!Runtime}.

Lemma py_is_chars (o c : str_obj) : chars o <> chars c -> py_is o c = false.
Proof.
  intros Hne. unfold py_is.
  destruct (String.eqb_spec (chars o) (chars c)) as [E | _]; [contradiction |].
  apply andb_false_r.
Qed.

(** The re-detection lines that open [data_handling] and the two
    postprocessors end with the resolved data type. *)
Lemma redetection_run dp dt (w w' : World) t0 o :
  resolved_data_type dp dt w = Some (w', t0, o) ->
  (if negb (truthy dt)
   then k <- ext (check_data_type dp) ;; ret (Some (kind_const k))
   else ret dt) w = (w', t0, inr (Some o)).
Proof.
  unfold resolved_data_type. intros Hres.
  destruct dt as [d |].
  - change (truthy (Some d)) with (truthy d).
    destruct (truthy d); simpl.
    + now inversion Hres.
    + unfold bind, ext.
      destruct (handle (check_data_type dp) w) as [w1 [e | k]];
        [discriminate |].
      now inversion Hres.
  - simpl. unfold bind, ext.
    destruct (handle (check_data_type dp) w) as [w1 [e | k]];
      [discriminate |].
    now inversion Hres.
Qed.

Lemma resolved_data_type_events dp dt (w w' : World) t0 o :
  resolved_data_type dp dt w = Some (w', t0, o) ->
  t0 = [] \/ t0 = [Ecall (check_data_type dp)].
Proof.
  unfold resolved_data_type. intros Hres.
  destruct dt as [d |]; [destruct (truthy d) |];
    try (left; now inversion Hres);
    destruct (handle (check_data_type dp) w) as [w1 [e | k]];
    try discriminate; right; now inversion Hres.
Qed.

(** C3: a postprocessor whose resolved data type (the one it is given or,
    failing that, the one [check_data_type] detects) differs from the
    type it requires raises [UsageError], built from its message and the
    data path.  It does so right after the resolution: the run consists
    of the invocation and, at most, the detection call; no ranking,
    selection or drawing call is made.  This holds for
    [mir_post_processing_spatial] (requires spatial) and for
    [mir_post_processing_sc] (requires single-cell). *)
Theorem postprocessor_rejects_other_data_type :
  forall dp cn pv ml rp dn dt fig th pops (w w' : World) t0 o,
    resolved_data_type dp dt w = Some (w', t0, o) ->
    (chars o <> chars _DATA_TYPE_SPATIAL ->
     mir_post_processing_spatial dp cn pv ml rp dn dt fig th w =
     (w',
      Eenter (f_mir_post_processing_spatial dp cn pv ml rp dn dt
                (fig ?: Some _DRAW_TOP_10) (th ?: Some _ACTIVITY_THRESH)) :: t0,
      inl (UsageError ["No spatial data was found for post-processing in %s";
                       dp]))) /\
    (chars o <> chars _DATA_TYPE_SINGLE_CELL ->
     mir_post_processing_sc dp cn pv ml rp dn dt fig pops w =
     (w',
      Eenter (f_mir_post_processing_sc dp cn pv ml rp dn dt
                (fig ?: Some _DRAW_TOP_10) (pops ?: None)) :: t0,
      inl (UsageError ["No scRNAseq data was found for post-processing in %s";
                       dp]))) /\
    forallb (fun e => negb (is_rendering_call e)) t0 = true.
Proof.
  intros dp cn pv ml rp dn dt fig th pops w w' t0 o Hres.
  pose proof (redetection_run _ _ _ Hres) as Hrun.
  repeat split.
  - intros Hne.
    unfold mir_post_processing_spatial, enter.
    rewrite emit_bind, (bind_returns _ _ _ Hrun).
    unfold opt_is. rewrite (py_is_chars _ _ Hne). cbn [negb].
    rewrite raise_bind. cbn [world_of events_of result_of fst snd].
    now rewrite app_nil_r.
  - intros Hne.
    unfold mir_post_processing_sc, enter.
    rewrite emit_bind, (bind_returns _ _ _ Hrun).
    unfold opt_is. rewrite (py_is_chars _ _ Hne). cbn [negb].
    rewrite raise_bind. cbn [world_of events_of result_of fst snd].
    now rewrite app_nil_r.
  - now apply resolved_data_type_events in Hres as [-> | ->].
Qed.

End TypeGuard.

(** ** The dispatch to a postprocessor *)

Section Dispatch.
Context `{Types} `{!Constants} `{!Runtime}.

Lemma postprocessor_frames_app (t1 t2 : list event) :
  postprocessor_frames (t1 ++ t2) =
  postprocessor_frames t1 ++ postprocessor_frames t2.
Proof. apply flat_map_app. Qed.

Lemma postprocessor_frames_none (t : list event) :
  forallb not_postprocessor t = true -> postprocessor_frames t = [].
Proof.
  induction t as [| e t IH]; [reflexivity |].
  simpl. intros Hall. apply andb_prop in Hall as [He Ht].
  rewrite (IH Ht). unfold not_postprocessor in He.
  destruct e as [X c | f | l | l fmt a]; try reflexivity.
  destruct f; try reflexivity; discriminate He.
Qed.

Lemma postprocessor_frames_bind {A B} (m : M A) (f : A -> M B) w :
  postprocessor_frames (events_of (bind m f w)) =
  postprocessor_frames (events_of (m w)) ++
  match result_of (m w) with
  | inl _ => []
  | inr a => postprocessor_frames (events_of (f a (world_of (m w))))
  end.
Proof.
  rewrite events_bind, postprocessor_frames_app.
  now destruct (result_of (m w)).
Qed.

Lemma data_handling_no_postprocessor dp dn dt pre :
  emits_only not_postprocessor (data_handling dp dn dt pre).
Proof. unfold data_handling. emits. Qed.

Lemma computing_mir_activity_no_postprocessor cn rp ml cpus sp dbg :
  emits_only not_postprocessor (computing_mir_activity cn rp ml cpus sp dbg).
Proof. unfold computing_mir_activity. emits. Qed.

(** A postprocessor's run shows its own invocation and no other. *)
Lemma spatial_frames dp cn pv ml rp dn dt fig th w :
  postprocessor_frames
    (events_of (mir_post_processing_spatial dp cn pv ml rp dn dt fig th w)) =
  [f_mir_post_processing_spatial dp cn pv ml rp dn dt
     (fig ?: Some _DRAW_TOP_10) (th ?: Some _ACTIVITY_THRESH)].
Proof.
  unfold mir_post_processing_spatial, enter. rewrite events_emit_bind.
  simpl. f_equal.
  apply postprocessor_frames_none, emits_only_at. emits.
Qed.

Lemma sc_frames dp c pv ml rp dn dt fig pops w :
  postprocessor_frames
    (events_of (mir_post_processing_sc dp c pv ml rp dn dt fig pops w)) =
  [f_mir_post_processing_sc dp c pv ml rp dn dt
     (fig ?: Some _DRAW_TOP_10) (pops ?: None)].
Proof.
  unfold mir_post_processing_sc, enter. rewrite events_emit_bind.
  simpl. f_equal.
  apply postprocessor_frames_none, emits_only_at. emits.
Qed.

Lemma py_eq_kind_const (k : data_kind) :
  py_eq (kind_const k) _DATA_TYPE_SPATIAL =
  match k with spatial => true | single_cell => false end.
Proof. now destruct k. Qed.

(** The events of [compute] from the detection on. *)
Lemma compute_events_from_detection
    dp dn ml cpus rp sp fig pre th pops dbg (w : World) :
  exists before,
    forallb not_postprocessor before = true /\
    events_of (compute dp dn ml cpus rp sp fig pre th pops dbg w) =
    before ++
    match snd (handle (check_data_type dp) w) with
    | inl _ => []
    | inr k =>
        events_of
          (('(counts_norm, counts) <-
              data_handling dp dn (Some (kind_const k))
                (given (pre ?: Some true)) ;;
            '(miR_list, miR_activity_pvals) <-
              computing_mir_activity counts_norm (spec_results_path dp dn rp)
                ml cpus (given (sp ?: Some _SPECIES_HOMO_SAPIENS))
                (given (dbg ?: Some false)) ;;
            (if py_eq (kind_const k) _DATA_TYPE_SPATIAL
             then mir_post_processing_spatial dp counts_norm
                    miR_activity_pvals miR_list (spec_results_path dp dn rp)
                    dn (Some (kind_const k))
                    (given (fig ?: Some _DRAW_TOP_10))
                    (given (th ?: Some _ACTIVITY_THRESH))
             else mir_post_processing_sc dp counts miR_activity_pvals
                    miR_list (spec_results_path dp dn rp) dn
                    (Some (kind_const k)) (given (fig ?: Some _DRAW_TOP_10))
                    (given (pops ?: None))) ;;
            logging_info "Done." [])
             (fst (handle (check_data_type dp) w)))
    end.
Proof.
  unfold compute. rewrite results_path_as_specified.
  unfold enter, logging_info, logging_debug, logging_set_verbosity.
  rewrite events_emit_bind.
  destruct (truthy (dbg ?: Some false)); rewrite ?bind_assoc;
    rewrite !events_emit_bind, events_ext_bind.
  - eexists [_; _; _; _; _; _; _]. split; [| reflexivity]. reflexivity.
  - eexists [_; _; _; _; _; _]. split; [| reflexivity]. reflexivity.
Qed.

(** C4: in a run of [compute] at most one postprocessor is invoked.
    When the detection, the loading and the scoring return, exactly one
    is: for spatial data [mir_post_processing_spatial], with the
    normalized table [counts_norm]; for any other data
    [mir_post_processing_sc], with the raw table [counts]. *)
Theorem compute_dispatches_one_postprocessor :
  forall dp dn ml cpus rp sp fig pre th pops dbg (w : World),
    let t := events_of (compute dp dn ml cpus rp sp fig pre th pops dbg w) in
    let results_path := spec_results_path dp dn rp in
    length (postprocessor_frames t) <= 1 /\
    forall k w1 w2 t2 counts_norm counts w3 t3 miR_list miR_activity_pvals,
      handle (check_data_type dp) w = (w1, inr k) ->
      data_handling dp dn (Some (kind_const k)) (given (pre ?: Some true)) w1 =
        (w2, t2, inr (counts_norm, counts)) ->
      computing_mir_activity counts_norm results_path ml cpus
        (given (sp ?: Some _SPECIES_HOMO_SAPIENS))
        (given (dbg ?: Some false)) w2 =
        (w3, t3, inr (miR_list, miR_activity_pvals)) ->
      postprocessor_frames t =
      [match k with
       | spatial =>
           f_mir_post_processing_spatial dp counts_norm miR_activity_pvals
             miR_list results_path dn (Some _DATA_TYPE_SPATIAL)
             (fig ?: Some _DRAW_TOP_10) (th ?: Some _ACTIVITY_THRESH)
       | single_cell =>
           f_mir_post_processing_sc dp counts miR_activity_pvals
             miR_list results_path dn (Some _DATA_TYPE_SINGLE_CELL)
             (fig ?: Some _DRAW_TOP_10) (pops ?: None)
       end].
Proof.
  intros. subst t results_path.
  destruct (compute_events_from_detection dp dn ml cpus rp sp fig pre th
              pops dbg w) as (before & Hbefore & ->).
  rewrite postprocessor_frames_app, (postprocessor_frames_none _ Hbefore).
  simpl app.
  split.
  - destruct (handle (check_data_type dp) w) as [w1 [e | k]]; simpl;
      [lia |].
    rewrite postprocessor_frames_bind.
    rewrite (postprocessor_frames_none _
               (emits_only_at _ (data_handling_no_postprocessor _ _ _ _))).
    simpl app.
    destruct (result_of _) as [e | [cn c]]; simpl; [lia |].
    rewrite postprocessor_frames_bind.
    rewrite (postprocessor_frames_none _
               (emits_only_at _
                  (computing_mir_activity_no_postprocessor _ _ _ _ _ _))).
    simpl app.
    destruct (result_of _) as [e | [l pv]]; simpl; [lia |].
    rewrite postprocessor_frames_bind.
    destruct (py_eq (kind_const k) _DATA_TYPE_SPATIAL).
    + rewrite spatial_frames. destruct (result_of _); simpl; lia.
    + rewrite sc_frames. destruct (result_of _); simpl; lia.
  - intros k w1 w2 t2 cn c w3 t3 l pv Hk Hload Hscore.
    rewrite Hk. simpl.
    rewrite postprocessor_frames_bind.
    rewrite (postprocessor_frames_none _
               (emits_only_at _ (data_handling_no_postprocessor _ _ _ _))).
    rewrite Hload. cbn [world_of result_of events_of fst snd app].
    rewrite postprocessor_frames_bind.
    rewrite (postprocessor_frames_none _
               (emits_only_at _
                  (computing_mir_activity_no_postprocessor _ _ _ _ _ _))).
    rewrite Hscore. cbn [world_of result_of events_of fst snd app].
    rewrite postprocessor_frames_bind, py_eq_kind_const.
    destruct k.
    + rewrite spatial_frames. now destruct (result_of _).
    + rewrite sc_frames. now destruct (result_of _).
Qed.

End Dispatch.

(** ** The worker count *)

Section WorkerCount.
Context `{Types} `{!Constants} `{!Runtime}.

(** C7: [computing_mir_activity] invokes the scoring engine with all
    available processing units, the answer of [mp.cpu_count()], when the
    worker count is [None]; and with [k] itself, without asking for the
    count of units, when the worker count is a positive [k].  In both
    cases the engine is invoked once, the catalog having been loaded. *)
Theorem computing_mir_activity_worker_count :
  forall cn rp ml sp dbg (w : World),
    let species := sp ?: Some _SPECIES_HOMO_SAPIENS in
    let debug := dbg ?: Some false in
    (forall n w1 w2 mti L,
        handle cpu_count w = (w1, inr n) ->
        handle (mir_data_loading ml species debug) w1 = (w2, inr (mti, L)) ->
        engine_cpus
          (events_of (computing_mir_activity cn rp ml None sp dbg w)) = [n]) /\
    (forall k w2 mti L,
        (0 < k)%Z ->
        handle (mir_data_loading ml species debug) w = (w2, inr (mti, L)) ->
        let t := events_of (computing_mir_activity cn rp ml (Some k) sp dbg w) in
        engine_cpus t = [k] /\ n_cpu_count t = 0).
Proof.
  intros. subst species debug. split.
  - intros n w1 w2 mti L Hn Hload.
    unfold computing_mir_activity, enter, logging_info.
    rewrite events_emit_bind, events_ext_bind, Hn.
    cbn [fst snd].
    rewrite events_emit_bind, events_ext_bind, Hload.
    cbn [fst snd].
    rewrite events_bind. cbn [time events_of result_of world_of fst snd app].
    rewrite events_ext_bind.
    destruct (handle _ w2) as [w3 [e | pv]]; reflexivity.
  - intros k w2 mti L Hk Hload t. subst t.
    unfold computing_mir_activity, enter, logging_info.
    rewrite events_emit_bind.
    assert (Ht : truthy k = true).
    { unfold truthy, Truthy_int.
      destruct (Z.eqb_spec k 0); [lia | reflexivity]. }
    rewrite Ht, events_bind.
    cbn [ret events_of result_of world_of fst snd app].
    rewrite events_emit_bind, events_ext_bind, Hload.
    cbn [fst snd].
    rewrite events_bind. cbn [time events_of result_of world_of fst snd app].
    rewrite events_ext_bind.
    destruct (handle _ w2) as [w3 [e | pv]]; split; reflexivity.
Qed.

End WorkerCount.

(** ** Flag validation *)

Section FlagValidation.
Context `{Types} `{!Constants} `{!Runtime}.

(** C8: a command line whose species, or whose [miR_figures] value, is
    outside its supported set is rejected by the flag validation:
    [app.run] ends with the flags error, whose message for the offending
    flag carries the supported values joined by ' or '; [main] is not
    called, so the run has no event (no loading, no scoring, no file
    access) and leaves the world as it was. *)
Theorem app_run_rejects_unsupported_values :
  forall (argv : list assignment) (w : World),
    let FLAGS := parse_flags argv in
    str_in (FLAGS_species FLAGS) _SUPPORTED_SPECIES = false \/
    str_in (FLAGS_miR_figures FLAGS) _SUPPORTED_DRAW = false ->
    exists messages,
      app_run argv w = (w, [], inl (IllegalFlagValueError messages)) /\
      (str_in (FLAGS_species FLAGS) _SUPPORTED_SPECIES = false ->
       In ("species",
           ["Either %s are supported."; str_join " or " _SUPPORTED_SPECIES])
          messages) /\
      (str_in (FLAGS_miR_figures FLAGS) _SUPPORTED_DRAW = false ->
       In ("miR_figures",
           ["Either %s are supported."; str_join " or " _SUPPORTED_DRAW])
          messages).
Proof.
  intros argv w FLAGS Hbad.
  exists (validate_all_flags FLAGS).
  unfold app_run. fold FLAGS.
  unfold validate_all_flags, validators. cbn [filter map checker negb].
  destruct (str_in (FLAGS_species FLAGS) _SUPPORTED_SPECIES) eqn:Hs;
    destruct (str_in (FLAGS_miR_figures FLAGS) _SUPPORTED_DRAW) eqn:Hf;
    cbn [negb map flag_name message].
  - destruct Hbad; discriminate.
  - destruct (is_not_None (FLAGS_dataset_name FLAGS));
      destruct (is_not_None (FLAGS_data_path FLAGS));
      cbn [negb map flag_name message];
      (split; [reflexivity | split; [discriminate | intros _; now left]]).
  - destruct (is_not_None (FLAGS_dataset_name FLAGS));
      destruct (is_not_None (FLAGS_data_path FLAGS));
      cbn [negb map flag_name message];
      (split; [reflexivity | split; [intros _; now left | discriminate]]).
  - destruct (is_not_None (FLAGS_dataset_name FLAGS));
      destruct (is_not_None (FLAGS_data_path FLAGS));
      cbn [negb map flag_name message];
      (split; [reflexivity
              | split; [intros _; now left | intros _; right; now left]]).
Qed.

End FlagValidation.

(** ** Loading and the preprocessing flag *)

Section Loading.
Context `{Types} `{!Constants} `{!Runtime}.

(** [data_handling] once the data type is resolved: the invocation, the
    resolution, then loading and normalizing. *)
Lemma data_handling_run dp dn dt p (w w' : World) t0 o :
  resolved_data_type dp dt w = Some (w', t0, o) ->
  data_handling dp dn dt p w =
  let r :=
    (counts <-
       (if py_eq o _DATA_TYPE_SPATIAL
        then ext (visium_loader dp)
        else if truthy (p ?: Some true)
             then ext (scRNAseq_preprocess_loader dn dp)
             else ext (scRNAseq_loader dp)) ;;
     counts_norm <- ext (normalize_counts counts) ;;
     ret (counts_norm, counts)) w' in
  (world_of r, Eenter (f_data_handling dp dn dt (p ?: Some true)) :: t0 ++ events_of r,
   result_of r).
Proof.
  intros Hres. unfold data_handling, enter.
  now rewrite emit_bind, (bind_returns _ _ _ (redetection_run _ _ _ Hres)).
Qed.

Lemma loader_calls_app (t1 t2 : list event) :
  loader_calls (t1 ++ t2) = loader_calls t1 ++ loader_calls t2.
Proof. apply filter_app. Qed.

Lemma loader_calls_enter (f : frame) (t : list event) :
  loader_calls (Eenter f :: t) = loader_calls t.
Proof. reflexivity. Qed.

(** Loading with the loader [c], then normalizing: [c] is the one loader
    call. *)
Lemma loader_calls_load_normalize (c : call DataFrame) (w : World) :
  is_loader_call (Ecall c) = true ->
  loader_calls
    (events_of
       ((counts <- ext c ;;
         counts_norm <- ext (normalize_counts counts) ;;
         ret (counts_norm, counts)) w)) = [Ecall c].
Proof.
  intros Hc. rewrite events_ext_bind.
  unfold loader_calls. cbn [filter]. rewrite Hc. f_equal.
  destruct (handle c w) as [w1 [e | counts]]; [reflexivity |].
  cbn [fst snd]. rewrite events_ext_bind.
  now destruct (handle (normalize_counts counts) w1) as [w2 [e | cn]].
Qed.

(** C9: the preprocessing flag matters for single-cell data only.  When
    the resolved data type is spatial, [data_handling] is the same for
    any two values of [preprocess]: same returned tables (or exception),
    same world, same collaborator calls, the one loader call being
    [visium_loader(data_path)].  When it is not spatial, the flag selects
    the loader: [scRNAseq_preprocess_loader(dataset_name, data_path)] for
    a true flag, [scRNAseq_loader(data_path)] for a false one. *)
Theorem data_handling_preprocess_only_single_cell :
  forall dp dn dt (w w' : World) t0 o,
    resolved_data_type dp dt w = Some (w', t0, o) ->
    (chars o = chars _DATA_TYPE_SPATIAL ->
     forall p p',
       let r := data_handling dp dn dt p w in
       let r' := data_handling dp dn dt p' w in
       result_of r = result_of r' /\
       world_of r = world_of r' /\
       calls_of (events_of r) = calls_of (events_of r') /\
       loader_calls (events_of r) = [Ecall (visium_loader dp)]) /\
    (chars o <> chars _DATA_TYPE_SPATIAL ->
     forall p,
       loader_calls (events_of (data_handling dp dn dt p w)) =
       [if truthy (p ?: Some true)
        then Ecall (scRNAseq_preprocess_loader dn dp)
        else Ecall (scRNAseq_loader dp)]).
Proof.
  intros dp dn dt w w' t0 o Hres.
  assert (Ht0 : loader_calls t0 = []).
  { now apply resolved_data_type_events in Hres as [-> | ->]. }
  split.
  - intros Heq p p' r r'. subst r r'.
    rewrite (data_handling_run _ dn _ p _ Hres).
    rewrite (data_handling_run _ dn _ p' _ Hres).
    unfold py_eq. rewrite Heq, String.eqb_refl.
    cbn [world_of events_of result_of fst snd].
    repeat split.
    change (?e :: ?t ++ ?u) with ((e :: t) ++ u).
    rewrite loader_calls_app, loader_calls_load_normalize by reflexivity.
    now rewrite loader_calls_enter, Ht0.
  - intros Hne p.
    rewrite (data_handling_run _ dn _ p _ Hres).
    unfold py_eq. apply String.eqb_neq in Hne. rewrite Hne.
    cbn [world_of events_of result_of fst snd].
    change (?e :: ?t ++ ?u) with ((e :: t) ++ u).
    rewrite loader_calls_app, loader_calls_enter, Ht0.
    destruct (truthy (p ?: Some true));
      now rewrite loader_calls_load_normalize.
Qed.

End Loading.

(** ** The defaults of the preprocessing flag *)

Section PreprocessDefault.
Context `{Types} `{!Constants} `{!Runtime}.

Lemma assign_keeps_preprocess (F : flag_values) (a : assignment) :
  sets_preprocess a = false ->
  FLAGS_preprocess (assign F a) = FLAGS_preprocess F.
Proof. destruct F, a; simpl; intros Ha; (reflexivity || discriminate). Qed.

Lemma fold_assign_keeps_preprocess (argv : list assignment) :
  forall F : flag_values,
    forallb (fun a => negb (sets_preprocess a)) argv = true ->
    FLAGS_preprocess (fold_left assign argv F) = FLAGS_preprocess F.
Proof.
  induction argv as [| a argv IH]; intros F Hall; [reflexivity |].
  simpl in Hall. apply andb_prop in Hall as [Ha Hrest].
  simpl. rewrite (IH _ Hrest).
  apply assign_keeps_preprocess. now destruct (sets_preprocess a).
Qed.

Lemma option_bool_eqb_refl (p : option bool) : option_bool_eqb p p = true.
Proof. now destruct p as [[|] |]. Qed.

Lemma data_handling_reads_preprocess dp dn dt p :
  emits_only (reads_preprocess (p ?: Some true)) (data_handling dp dn dt p).
Proof.
  unfold data_handling.
  apply emits_only_bind; [| intros _; emits].
  apply emits_only_emit. apply option_bool_eqb_refl.
Qed.

Lemma computing_mir_activity_reads_preprocess p cn rp ml cpus sp dbg :
  emits_only (reads_preprocess p) (computing_mir_activity cn rp ml cpus sp dbg).
Proof. unfold computing_mir_activity. emits. Qed.

Lemma spatial_reads_preprocess p dp cn pv ml rp dn dt fig th :
  emits_only (reads_preprocess p)
    (mir_post_processing_spatial dp cn pv ml rp dn dt fig th).
Proof. unfold mir_post_processing_spatial. emits. Qed.

Lemma sc_reads_preprocess p dp c pv ml rp dn dt fig pops :
  emits_only (reads_preprocess p)
    (mir_post_processing_sc dp c pv ml rp dn dt fig pops).
Proof. unfold mir_post_processing_sc. emits. Qed.

Lemma compute_reads_preprocess dp dn ml cpus rp sp fig p th pops dbg :
  emits_only (reads_preprocess (p ?: Some true))
    (compute dp dn ml cpus rp sp fig p th pops dbg).
Proof.
  pose proof (data_handling_reads_preprocess) as Hload.
  pose proof computing_mir_activity_reads_preprocess.
  pose proof spatial_reads_preprocess.
  pose proof sc_reads_preprocess.
  unfold compute.
  apply emits_only_bind;
    [apply emits_only_emit; apply option_bool_eqb_refl | intros _].
  apply emits_only_bind; [emits | intros _].
  do 3 (apply emits_only_bind; [emits | intros _]).
  apply emits_only_bind; [emits | intros k].
  apply emits_only_bind;
    [apply (Hload dp dn (Some (kind_const k)) (given (p ?: Some true)))
    | intros [cn c]].
  emits; auto.
Qed.

Lemma data_handling_plain_loader dp dn dt p :
  truthy (p ?: Some true) = false ->
  emits_only not_preprocess_loader (data_handling dp dn dt p).
Proof. intros Hp. unfold data_handling. rewrite Hp. emits. Qed.

Lemma computing_mir_activity_plain_loader cn rp ml cpus sp dbg :
  emits_only not_preprocess_loader (computing_mir_activity cn rp ml cpus sp dbg).
Proof. unfold computing_mir_activity. emits. Qed.

Lemma spatial_plain_loader dp cn pv ml rp dn dt fig th :
  emits_only not_preprocess_loader
    (mir_post_processing_spatial dp cn pv ml rp dn dt fig th).
Proof. unfold mir_post_processing_spatial. emits. Qed.

Lemma sc_plain_loader dp c pv ml rp dn dt fig pops :
  emits_only not_preprocess_loader
    (mir_post_processing_sc dp c pv ml rp dn dt fig pops).
Proof. unfold mir_post_processing_sc. emits. Qed.

#[local] Hint Resolve data_handling_plain_loader
  computing_mir_activity_plain_loader spatial_plain_loader sc_plain_loader
  compute_reads_preprocess : emits.

Lemma compute_plain_loader dp dn ml cpus rp sp fig p th pops dbg :
  truthy (p ?: Some true) = false ->
  emits_only not_preprocess_loader
    (compute dp dn ml cpus rp sp fig p th pops dbg).
Proof. intros Hp. unfold compute. emits. Qed.

#[local] Hint Resolve compute_plain_loader : emits.

(** C10: called without a [preprocess] argument, [data_handling] and
    [compute] behave as with [preprocess=True], so that data which is
    not spatial is loaded by the merging and subsampling loader.  The
    command-line flag defaults to [False], and stays so on any command
    line that does not set it; [main] passes the flag's value on, so
    every invocation of [compute] and [data_handling] of the program
    takes it, and a program run without the flag never calls the merging
    and subsampling loader. *)
Theorem preprocess_defaults_differ :
  (forall dp dn dt (w : World),
      data_handling dp dn dt omitted w =
      data_handling dp dn dt (given (Some true)) w) /\
  (forall dp dn ml cpus rp sp fig th pops dbg (w : World),
      compute dp dn ml cpus rp sp fig omitted th pops dbg w =
      compute dp dn ml cpus rp sp fig (given (Some true)) th pops dbg w) /\
  (forall dp dn dt (w w' : World) t0 o,
      resolved_data_type dp dt w = Some (w', t0, o) ->
      chars o <> chars _DATA_TYPE_SPATIAL ->
      loader_calls (events_of (data_handling dp dn dt omitted w)) =
      [Ecall (scRNAseq_preprocess_loader dn dp)]) /\
  FLAGS_preprocess FLAGS_defaults = false /\
  (forall (argv : list assignment) (w : World),
      forallb (reads_preprocess (Some (FLAGS_preprocess (parse_flags argv))))
        (events_of (app_run argv w)) = true) /\
  (forall (argv : list assignment) (w : World),
      forallb (fun a => negb (sets_preprocess a)) argv = true ->
      FLAGS_preprocess (parse_flags argv) = false /\
      forallb not_preprocess_loader (events_of (app_run argv w)) = true).
Proof.
  split; [reflexivity |]. split; [reflexivity |].
  split.
  { intros dp dn dt w w' t0 o Hres Hne.
    rewrite (data_handling_run _ dn _ omitted _ Hres).
    unfold py_eq. apply String.eqb_neq in Hne. rewrite Hne.
    cbn [world_of events_of result_of fst snd].
    change (truthy (omitted ?: Some true)) with true. cbv iota.
    change (?e :: ?t ++ ?u) with ((e :: t) ++ u).
    rewrite loader_calls_app, loader_calls_enter.
    apply resolved_data_type_events in Hres as [-> | ->];
      now rewrite loader_calls_load_normalize. }
  split; [reflexivity |].
  assert (Hmain : forall (F : flag_values) P,
             P (Eenter f_main) = true ->
             (forall dp dn,
                 emits_only P
                   (compute dp dn (FLAGS_miR_list F) (FLAGS_cpus F)
                      (FLAGS_results_path F) (given (Some (FLAGS_species F)))
                      (given (Some (FLAGS_miR_figures F)))
                      (given (Some (FLAGS_preprocess F)))
                      (given (Some (FLAGS_thresh F)))
                      (given (FLAGS_populations F))
                      (given (Some (FLAGS_debug F))))) ->
             emits_only P (main F)).
  { intros F P Hm Hc. unfold main.
    apply emits_only_bind; [now apply emits_only_emit | intros _].
    destruct (FLAGS_data_path F), (FLAGS_dataset_name F);
      solve [apply Hc | apply emits_only_raise]. }
  split.
  - intros argv w. unfold app_run.
    destruct (validate_all_flags (parse_flags argv)); [| reflexivity].
    apply emits_only_at, Hmain; [reflexivity |].
    intros dp dn.
    apply (compute_reads_preprocess dp dn _ _ _ _ _
             (given (Some (FLAGS_preprocess (parse_flags argv))))).
  - intros argv w Hno.
    assert (Hp : FLAGS_preprocess (parse_flags argv) = false).
    { unfold parse_flags. now rewrite fold_assign_keeps_preprocess. }
    split; [exact Hp |].
    unfold app_run.
    destruct (validate_all_flags (parse_flags argv)); [| reflexivity].
    apply emits_only_at, Hmain; [reflexivity |].
    intros dp dn. apply compute_plain_loader.
    now rewrite Hp.
Qed.

End PreprocessDefault.

(** ** The scoring engine: slices and reassembly *)

Section ScoringProperties.
Variables (value pval : Type).
Variable sentinel : pval.
Variable test : list value -> list value -> pval.

Lemma flat_map_seq_shift {A} (f : nat -> list A) (a k : nat) :
  flat_map f (seq (S a) k) = flat_map (fun i => f (S i)) (seq a k).
Proof.
  rewrite <- seq_shift, !flat_map_concat_map. now rewrite map_map.
Qed.

Lemma flat_map_agree {A B} (f g : A -> list B) (l : list A) :
  (forall a, In a l -> f a = g a) -> flat_map f l = flat_map g l.
Proof.
  induction l as [| a l IH]; intros Hfg; [reflexivity |].
  simpl. rewrite (Hfg a) by now left.
  f_equal. apply IH. intros b Hb. apply Hfg. now right.
Qed.

(** The slices, taken in index order, give the list back. *)
Lemma slices_cover {A} (size k : nat) :
  forall L : list A,
    length L <= k * size ->
    flat_map (fun i => slice L size i) (seq 0 k) = L.
Proof.
  induction k as [| k IH]; intros L Hlen.
  - destruct L; [reflexivity | simpl in Hlen; lia].
  - cbn [seq flat_map]. rewrite flat_map_seq_shift.
    unfold slice at 1. cbn [Nat.mul skipn].
    rewrite (flat_map_ext _ (fun i => slice (skipn size L) size i)).
    + rewrite IH; [apply firstn_skipn |].
      rewrite length_skipn. simpl in Hlen. lia.
    + intros i. unfold slice. rewrite skipn_skipn.
      do 2 f_equal. simpl. lia.
Qed.

(** [k] slices of the rounded-up size are enough. *)
Lemma slice_size_enough (n k : nat) : 1 <= k -> n <= k * slice_size n k.
Proof.
  intros Hk. unfold slice_size.
  pose proof (Nat.div_mod_eq (n + k - 1) k) as Hdiv.
  pose proof (Nat.mod_upper_bound (n + k - 1) k) as Hmod.
  lia.
Qed.

(** An output is found under its slice index, wherever it arrived. *)
Lemma output_of_run_workers M L C k (finish_order : list nat) (i : nat) :
  In i finish_order ->
  output_of i (run_workers sentinel test M L C k finish_order) =
  worker sentinel test M C (slice L (slice_size (length L) k) i).
Proof.
  unfold output_of, run_workers.
  induction finish_order as [| j rest IH]; intros Hin; [destruct Hin |].
  simpl. destruct (Nat.eqb_spec j i) as [-> | Hne]; [reflexivity |].
  apply IH. destruct Hin as [-> | Hin]; [contradiction | exact Hin].
Qed.

Lemma worker_flat_map M C {A} (f : A -> list string) (l : list A) :
  flat_map (fun a => worker sentinel test M C (f a)) l =
  worker sentinel test M C (flat_map f l).
Proof.
  unfold worker. induction l as [| a l IH]; [reflexivity |].
  simpl. now rewrite map_app, IH.
Qed.

(** Whatever the number of workers and the order they finish in, the
    result is the rows of the list, in the order of the list. *)
Lemma score_in_order_rows M L C k (finish_order : list nat) :
  1 <= k ->
  (forall i, i < k -> In i finish_order) ->
  score_in_order sentinel test M L C k finish_order =
  worker sentinel test M C L.
Proof.
  intros Hk Hall. unfold score_in_order, reassemble.
  rewrite (flat_map_agree _
             (fun i => worker sentinel test M C
                         (slice L (slice_size (length L) k) i))).
  - rewrite worker_flat_map, slices_cover; [reflexivity |].
    now apply slice_size_enough.
  - intros i Hi. apply in_seq in Hi.
    apply output_of_run_workers, Hall. lia.
Qed.

Lemma score_rows M L C k :
  1 <= k -> score sentinel test M L C k = worker sentinel test M C L.
Proof.
  intros Hk. apply score_in_order_rows; [exact Hk |].
  intros i Hi. apply in_seq. lia.
Qed.

(** C1: the result of the scoring does not depend on the worker count:
    for every matrix, microRNA list and catalog, and every [k >= 1],
    [score M L C 1 = score M L C k]; nor does it depend on the order in
    which the [k] workers finish. *)
Theorem score_invariant_to_worker_count :
  forall (M : count_matrix value) (L : list string) (C : target_catalog)
         (k : nat),
    1 <= k ->
    score sentinel test M L C 1 = score sentinel test M L C k /\
    forall finish_order,
      Permutation (seq 0 k) finish_order ->
      score_in_order sentinel test M L C k finish_order =
      score sentinel test M L C k.
Proof.
  intros M L C k Hk. split.
  - rewrite !score_rows; [reflexivity | exact Hk | lia].
  - intros finish_order Hperm.
    rewrite score_rows by exact Hk.
    apply score_in_order_rows; [exact Hk |].
    intros i Hi. apply (Permutation_in _ Hperm), in_seq. lia.
Qed.

Lemma str_in_In (g : string) (l : list string) : str_in g l = true <-> In g l.
Proof.
  unfold str_in. rewrite existsb_exists. split.
  - intros (x & Hx & Heq). apply String.eqb_eq in Heq. now subst.
  - intros Hin. exists g. split; [exact Hin | apply String.eqb_refl].
Qed.

Lemma no_overlap_no_targets (M : count_matrix value) (C : target_catalog) m :
  (forall g, In g (C m) -> ~ In g (gene_index M)) ->
  targets_in_matrix M C m = [].
Proof.
  intros Hdisj. unfold targets_in_matrix.
  induction (gene_index M) as [| g genes IH]; [reflexivity |].
  simpl. destruct (str_in g (C m)) eqn:Hg.
  - apply str_in_In in Hg. exfalso. apply (Hdisj g Hg). now left.
  - apply IH. intros g' Hin Hin'. apply (Hdisj g' Hin). now right.
Qed.

(** C6: a microRNA of the list none of whose target genes is in the
    matrix is kept in the result, and its row holds the sentinel in
    every cell column; the engine is a total function, there is no
    error outcome.  The rows of the result are those of the list, in
    order, for any worker count [k >= 1]. *)
Theorem zero_overlap_row_is_sentinel :
  forall (M : count_matrix value) (L : list string) (C : target_catalog)
         (k : nat) (m : string),
    1 <= k ->
    In m L ->
    (forall g, In g (C m) -> ~ In g (gene_index M)) ->
    let sentinel_row := map (fun _ => sentinel) (cell_index M) in
    In (m, sentinel_row) (score sentinel test M L C k) /\
    (forall row, In (m, row) (score sentinel test M L C k) ->
                 row = sentinel_row) /\
    map fst (score sentinel test M L C k) = L.
Proof.
  intros M L C k m Hk Hin Hdisj sentinel_row.
  rewrite score_rows by exact Hk. unfold worker.
  assert (Hrow : score_row sentinel test M C m = sentinel_row).
  { unfold score_row. now rewrite no_overlap_no_targets. }
  repeat split.
  - rewrite <- Hrow.
    now apply (in_map (fun m' => (m', score_row sentinel test M C m'))).
  - intros row Hrowin. apply in_map_iff in Hrowin as (m' & Heq & _).
    inversion Heq; subst. exact Hrow.
  - rewrite map_map. simpl. apply map_id.
Qed.

End ScoringProperties.

(** * The statements on the sample environment *)

(** The scenario of the specification with two workers, also when the
    second worker finishes first. *)
Lemma score_invariant_to_worker_count_sample :
  score (0, 0) sample_test sample_matrix ["m1"; "m2"] sample_catalog 1 =
  score (0, 0) sample_test sample_matrix ["m1"; "m2"] sample_catalog 2 /\
  score_in_order (0, 0) sample_test sample_matrix ["m1"; "m2"] sample_catalog
    2 [1; 0] =
  score (0, 0) sample_test sample_matrix ["m1"; "m2"] sample_catalog 2.
Proof.
  assert (Hk : 1 <= 2) by lia.
  destruct (score_invariant_to_worker_count (0, 0) sample_test sample_matrix
              ["m1"; "m2"] sample_catalog Hk) as [Hone Horder].
  split; [exact Hone |].
  apply Horder. simpl. apply perm_swap.
Defined.

(** In the scenario, m2 (target gene5, absent) has the sentinel row. *)
Lemma zero_overlap_row_is_sentinel_sample :
  In ("m2", [(0, 0); (0, 0); (0, 0); (0, 0)])
     (score (0, 0) sample_test sample_matrix ["m1"; "m2"] sample_catalog 2).
Proof.
  assert (Hk : 1 <= 2) by lia.
  assert (Hin : In "m2" ["m1"; "m2"]) by (simpl; auto).
  assert (Hdisj : forall g, In g (sample_catalog "m2") ->
                            ~ In g (gene_index sample_matrix)).
  { intros g [<- | []] Hg. simpl in Hg.
    repeat (destruct Hg as [Hg | Hg]; [discriminate Hg |]). exact Hg. }
  exact (proj1 (zero_overlap_row_is_sentinel (0, 0) sample_test sample_matrix
                  ["m1"; "m2"] sample_catalog "m2" Hk Hin Hdisj)).
Defined.

(** Spatial postprocessing of a single-cell dataset. *)
Lemma postprocessor_rejects_other_data_type_sample :
  @mir_post_processing_spatial sample_types sample_constants sample_runtime
    "/sc/a" "norm:table:/sc/a" "pvals" ["m1"; "m2"] "/out/ds1" "ds1" None
    omitted omitted 0%nat =
  (1%nat,
   [Eenter (@f_mir_post_processing_spatial sample_types "/sc/a"
              "norm:table:/sc/a" "pvals" ["m1"; "m2"] "/out/ds1" "ds1" None
              (Some "top_10") (Some 5%Z));
    Ecall (check_data_type "/sc/a")],
   inl (UsageError ["No spatial data was found for post-processing in %s";
                    "/sc/a"])).
Proof.
  assert (Hres : @resolved_data_type sample_types sample_runtime "/sc/a" None
                   0%nat =
                 Some (1%nat, [Ecall (check_data_type "/sc/a")],
                       _DATA_TYPE_SINGLE_CELL)) by reflexivity.
  assert (Hne : chars _DATA_TYPE_SINGLE_CELL <> chars _DATA_TYPE_SPATIAL)
    by discriminate.
  exact (proj1 (@postprocessor_rejects_other_data_type sample_types
                  sample_constants sample_runtime "/sc/a" "norm:table:/sc/a"
                  "pvals" ["m1"; "m2"] "/out/ds1" "ds1" None omitted omitted
                  omitted 0%nat 1%nat _ _ Hres) Hne).
Defined.

(** A spatial run invokes the spatial postprocessor on the normalized
    table. *)
Lemma compute_dispatches_one_postprocessor_sample :
  postprocessor_frames
    (events_of
       (@compute sample_types sample_constants sample_runtime "/visium/a"
          "ds1" None None (Some "/out") omitted omitted omitted omitted
          omitted omitted 0%nat)) =
  [@f_mir_post_processing_spatial sample_types "/visium/a"
     "norm:visium:/visium/a" "pvals" ["m1"; "m2"] "/out/ds1" "ds1"
     (Some _DATA_TYPE_SPATIAL) (Some "top_10") (Some 5%Z)].
Proof.
  refine (proj2 (@compute_dispatches_one_postprocessor sample_types
                   sample_constants sample_runtime "/visium/a" "ds1" None
                   None (Some "/out") omitted omitted omitted omitted omitted
                   omitted 0%nat)
            spatial 1%nat 3%nat _ "norm:visium:/visium/a" "visium:/visium/a"
            6%nat _ ["m1"; "m2"] "pvals" _ _ _);
    reflexivity.
Defined.

(** Without a worker count, the eight units of the sample machine; with
    three, three. *)
Lemma computing_mir_activity_worker_count_sample :
  engine_cpus
    (events_of
       (@computing_mir_activity sample_types sample_constants sample_runtime
          "norm" "/out/ds1" None None omitted omitted 0%nat)) = [8%Z] /\
  engine_cpus
    (events_of
       (@computing_mir_activity sample_types sample_constants sample_runtime
          "norm" "/out/ds1" None (Some 3%Z) omitted omitted 0%nat)) = [3%Z].
Proof.
  destruct (@computing_mir_activity_worker_count sample_types sample_constants
              sample_runtime "norm" "/out/ds1" None omitted omitted 0%nat)
    as [Hnone Hsome].
  split.
  - refine (Hnone 8%Z 1%nat 2%nat "mti" ["m1"; "m2"] _ _); reflexivity.
  - refine (proj1 (Hsome 3%Z 1%nat "mti" ["m1"; "m2"] _ _));
      [lia | reflexivity].
Defined.

(** An unsupported species on the command line. *)
Lemma app_run_rejects_unsupported_values_sample :
  exists messages,
    @app_run sample_types sample_constants sample_runtime
      [set_data_path "/sc/a"; set_dataset_name "ds1"; set_species "rat"]
      0%nat =
    (0%nat, [], inl (IllegalFlagValueError messages)) /\
    In ("species", ["Either %s are supported."; "homo_sapiens or mus_musculus"])
       messages.
Proof.
  assert (Hbad :
    str_in (FLAGS_species
              (@parse_flags sample_types sample_constants
                 [set_data_path "/sc/a"; set_dataset_name "ds1";
                  set_species "rat"]))
           (@_SUPPORTED_SPECIES sample_types sample_constants) = false)
    by reflexivity.
  destruct (@app_run_rejects_unsupported_values sample_types sample_constants
              sample_runtime
              [set_data_path "/sc/a"; set_dataset_name "ds1"; set_species "rat"]
              0%nat (or_introl Hbad)) as (messages & Hrun & Hspecies & _).
  exists messages. split; [exact Hrun | exact (Hspecies Hbad)].
Defined.

(** Spatial data loads the same with and without preprocessing;
    single-cell data does not. *)
Lemma data_handling_preprocess_only_single_cell_sample :
  result_of
    (@data_handling sample_types sample_runtime "/visium/a" "ds1" None
       (given (Some true)) 0%nat) =
  result_of
    (@data_handling sample_types sample_runtime "/visium/a" "ds1" None
       (given (Some false)) 0%nat) /\
  loader_calls
    (events_of
       (@data_handling sample_types sample_runtime "/sc/a" "ds1" None
          (given (Some false)) 0%nat)) =
  [Ecall (scRNAseq_loader "/sc/a")].
Proof.
  split.
  - assert (Hres : @resolved_data_type sample_types sample_runtime
                     "/visium/a" None 0%nat =
                   Some (1%nat, [Ecall (check_data_type "/visium/a")],
                         _DATA_TYPE_SPATIAL)) by reflexivity.
    exact (proj1 (proj1 (@data_handling_preprocess_only_single_cell
                           sample_types sample_runtime "/visium/a" "ds1" None
                           0%nat 1%nat _ _ Hres)
                   eq_refl (given (Some true)) (given (Some false)))).
  - assert (Hres : @resolved_data_type sample_types sample_runtime
                     "/sc/a" None 0%nat =
                   Some (1%nat, [Ecall (check_data_type "/sc/a")],
                         _DATA_TYPE_SINGLE_CELL)) by reflexivity.
    assert (Hne : chars _DATA_TYPE_SINGLE_CELL <> chars _DATA_TYPE_SPATIAL)
      by discriminate.
    exact (proj2 (@data_handling_preprocess_only_single_cell
                    sample_types sample_runtime "/sc/a" "ds1" None
                    0%nat 1%nat _ _ Hres)
             Hne (given (Some false))).
Defined.

(** Single-cell data: [data_handling] called without [preprocess] merges
    and subsamples; the program run without the flag does not. *)
Lemma preprocess_defaults_differ_sample :
  loader_calls
    (events_of
       (@data_handling sample_types sample_runtime "/sc/a" "ds1" None
          omitted 0%nat)) =
  [Ecall (scRNAseq_preprocess_loader "ds1" "/sc/a")] /\
  forallb not_preprocess_loader
    (events_of
       (@app_run sample_types sample_constants sample_runtime
          [set_data_path "/sc/a"; set_dataset_name "ds1"] 0%nat)) = true.
Proof.
  destruct (@preprocess_defaults_differ sample_types sample_constants
              sample_runtime) as (_ & _ & Hsc & _ & _ & Hcli).
  split.
  - assert (Hres : @resolved_data_type sample_types sample_runtime
                     "/sc/a" None 0%nat =
                   Some (1%nat, [Ecall (check_data_type "/sc/a")],
                         _DATA_TYPE_SINGLE_CELL)) by reflexivity.
    assert (Hne : chars _DATA_TYPE_SINGLE_CELL <> chars _DATA_TYPE_SPATIAL)
      by discriminate.
    exact (Hsc "/sc/a" "ds1" None 0%nat 1%nat _ _ Hres Hne).
  - assert (Hno : forallb (fun a => negb (sets_preprocess a))
                    [@set_data_path sample_types "/sc/a";
                     set_dataset_name "ds1"] = true) by reflexivity.
    exact (proj2 (Hcli _ 0%nat Hno)).
Defined.

(** * Further properties of the pipeline *)

(** ** What a run raises *)

Section Raising.
Context `{Types} `{!Constants} `{!Runtime}.

Lemma result_bind {A B} (m : M A) (f : A -> M B) (w : World) :
  result_of (bind m f w) =
  match result_of (m w) with
  | inl e => inl e
  | inr a => result_of (f a (world_of (m w)))
  end.
Proof.
  unfold bind, result_of, world_of.
  destruct (m w) as [[w1 t1] [e | a]]; simpl; [reflexivity |].
  now destruct (f a w1) as [[w2 t2] r].
Qed.

Lemma world_bind {A B} (m : M A) (f : A -> M B) (w : World) :
  world_of (bind m f w) =
  match result_of (m w) with
  | inl _ => world_of (m w)
  | inr a => world_of (f a (world_of (m w)))
  end.
Proof.
  unfold bind, result_of, world_of.
  destruct (m w) as [[w1 t1] [e | a]]; simpl; [reflexivity |].
  now destruct (f a w1) as [[w2 t2] r].
Qed.

Variable Q : exn -> Prop.
Hypothesis collaborators_raise_Q :
  forall X (c : call X) (w w' : World) e, handle c w = (w', inl e) -> Q e.

Lemma raises_only_ret {A} (a : A) : raises_only Q (ret a).
Proof. intros w e. discriminate. Qed.

Lemma raises_only_emit (ev : event) : raises_only Q (emit ev).
Proof. intros w e. discriminate. Qed.

Lemma raises_only_time : raises_only Q time.
Proof. intros w e. discriminate. Qed.

Lemma raises_only_ext {X} (c : call X) : raises_only Q (ext c).
Proof.
  intros w e. unfold ext, result_of.
  destruct (handle c w) as [w' r] eqn:Hc. simpl. intros ->.
  exact (collaborators_raise_Q _ _ Hc).
Qed.

Lemma raises_only_ret_bind {A B} (a : A) (f : A -> M B) :
  raises_only Q (f a) -> raises_only Q (bind (ret a) f).
Proof.
  intros Hf w e. rewrite result_bind. apply Hf.
Qed.

Lemma raises_only_bind {A B} (m : M A) (f : A -> M B) :
  raises_only Q m -> (forall a, raises_only Q (f a)) ->
  raises_only Q (bind m f).
Proof.
  intros Hm Hf w e. rewrite result_bind.
  destruct (result_of (m w)) as [e' | a] eqn:Hr.
  - intros Heq. inversion Heq; subst. exact (Hm w e Hr).
  - apply Hf.
Qed.

End Raising.

Create HintDb raises.

Ltac raises_step :=
  first
    [ solve [ auto with raises nocore ]
    | apply raises_only_ret
    | apply raises_only_emit
    | apply raises_only_time
    | apply raises_only_ext; assumption
    | apply raises_only_ret_bind; cbv beta
    | apply raises_only_bind; [ | intros ? ]
    | match goal with
      | |- raises_only _ (if ?b then _ else _) => destruct b
      | |- raises_only _ (match ?x with _ => _ end) => destruct x
      | |- raises_only _ (let (_, _) := ?x in _) => destruct x
      end ].

Ltac raises := repeat raises_step.

Section PipelineRaises.
Context `{Types} `{!Constants} `{!Runtime}.
Variable Q : exn -> Prop.
Hypothesis collaborators_raise_Q :
  forall X (c : call X) (w w' : World) e, handle c w = (w', inl e) -> Q e.

Lemma data_handling_raises dp dn dt pre :
  raises_only Q (data_handling dp dn dt pre).
Proof. unfold data_handling, enter. raises. Qed.

Lemma computing_mir_activity_raises cn rp ml cpus sp dbg :
  raises_only Q (computing_mir_activity cn rp ml cpus sp dbg).
Proof. unfold computing_mir_activity, enter, logging_info. raises. Qed.

(** Handed the constant of its own type, a postprocessor passes its
    guard. *)
Lemma spatial_raises dp cn pv ml rp dn fig th :
  raises_only Q
    (mir_post_processing_spatial dp cn pv ml rp dn (Some _DATA_TYPE_SPATIAL)
       fig th).
Proof. unfold mir_post_processing_spatial, enter, logging_info. raises. Qed.

Lemma sc_raises dp c pv ml rp dn fig pops :
  raises_only Q
    (mir_post_processing_sc dp c pv ml rp dn (Some _DATA_TYPE_SINGLE_CELL)
       fig pops).
Proof. unfold mir_post_processing_sc, enter, logging_info. raises. Qed.

Lemma dispatch_raises k dp cn c pv ml rp dn fig th pops :
  raises_only Q
    (if py_eq (kind_const k) _DATA_TYPE_SPATIAL
     then mir_post_processing_spatial dp cn pv ml rp dn (Some (kind_const k))
            fig th
     else mir_post_processing_sc dp c pv ml rp dn (Some (kind_const k))
            fig pops).
Proof. destruct k; [apply spatial_raises | apply sc_raises]. Qed.

#[local] Hint Resolve data_handling_raises computing_mir_activity_raises
  dispatch_raises : raises.


End PipelineRaises.

(** ** The closing log line *)

Section Done.
Context `{Types} `{!Constants} `{!Runtime}.

Lemma ends_done_log : ends_done (logging_info "Done." []).
Proof. intros w. simpl. now exists []. Qed.

Lemma ends_done_bind {A B} (m : M A) (f : A -> M B) :
  emits_only not_done m -> (forall a, ends_done (f a)) ->
  ends_done (bind m f).
Proof.
  intros Hm Hf w. rewrite result_bind, events_bind.
  specialize (Hm w).
  destruct (result_of (m w)) as [e | a].
  - now rewrite app_nil_r.
  - specialize (Hf a (world_of (m w))).
    destruct (result_of (f a (world_of (m w)))) as [e | b].
    + now rewrite forallb_app, Hm, Hf.
    + destruct Hf as (t & -> & Ht).
      exists (events_of (m w) ++ t). split.
      * now rewrite app_assoc.
      * now rewrite forallb_app, Hm, Ht.
Qed.

Lemma data_handling_not_done dp dn dt pre :
  emits_only not_done (data_handling dp dn dt pre).
Proof. unfold data_handling. emits. Qed.

Lemma computing_mir_activity_not_done cn rp ml cpus sp dbg :
  emits_only not_done (computing_mir_activity cn rp ml cpus sp dbg).
Proof. unfold computing_mir_activity. emits. Qed.

Lemma spatial_not_done dp cn pv ml rp dn dt fig th :
  emits_only not_done (mir_post_processing_spatial dp cn pv ml rp dn dt fig th).
Proof. unfold mir_post_processing_spatial. emits. Qed.

Lemma sc_not_done dp c pv ml rp dn dt fig pops :
  emits_only not_done (mir_post_processing_sc dp c pv ml rp dn dt fig pops).
Proof. unfold mir_post_processing_sc. emits. Qed.

#[local] Hint Resolve data_handling_not_done computing_mir_activity_not_done
  spatial_not_done sc_not_done : emits.

(** X2: a run of [compute] logs 'Done.' exactly when it returns: the line
    is then its last event and occurs nowhere before; a run that ends
    with an exception never logs it. *)
Theorem compute_logs_done_iff_it_returns :
  forall dp dn ml cpus rp sp fig pre th pops dbg (w : World),
    let r := compute dp dn ml cpus rp sp fig pre th pops dbg w in
    match result_of r with
    | inr _ =>
        exists t, events_of r = t ++ [Elog INFO "Done." []] /\
                  forallb not_done t = true
    | inl _ => forallb not_done (events_of r) = true
    end.
Proof.
  intros dp dn ml cpus rp sp fig pre th pops dbg.
  change (ends_done (compute dp dn ml cpus rp sp fig pre th pops dbg)).
  unfold compute.
  do 6 (apply ends_done_bind; [emits | intros ?]).
  apply ends_done_bind; [emits | intros [cn c]].
  apply ends_done_bind; [emits | intros [l pv]].
  apply ends_done_bind; [emits | intros _].
  apply ends_done_log.
Qed.

End Done.

(** ** The order of the collaborator calls *)

Section Order.
Context `{Types} `{!Constants} `{!Runtime}.

Lemma increasing_from_weaken (l : list nat) :
  forall lo lo', lo' <= lo ->
    increasing_from lo l = true -> increasing_from lo' l = true.
Proof.
  destruct l as [| x rest]; intros lo lo' Hle; [reflexivity |].
  simpl. intros Hinc. apply andb_prop in Hinc as [Hx Hrest].
  rewrite Hrest, andb_true_r. apply Nat.leb_le in Hx. apply Nat.leb_le. lia.
Qed.

Lemma increasing_from_app (l1 l2 : list nat) (mid : nat) :
  forall lo,
    lo <= mid ->
    increasing_from lo l1 = true ->
    forallb (fun x => Nat.ltb x mid) l1 = true ->
    increasing_from mid l2 = true ->
    increasing_from lo (l1 ++ l2) = true.
Proof.
  induction l1 as [| x rest IH]; intros lo Hle Hinc Hbelow Hl2.
  - simpl. now apply (increasing_from_weaken _ Hle).
  - simpl in *. apply andb_prop in Hinc as [Hx Hrest].
    apply andb_prop in Hbelow as [Hxmid Hbelow].
    rewrite Hx. simpl. apply IH; try assumption.
    apply Nat.ltb_lt in Hxmid. lia.
Qed.

Lemma below_weaken (l : list nat) (hi hi' : nat) :
  hi <= hi' ->
  forallb (fun x => Nat.ltb x hi) l = true ->
  forallb (fun x => Nat.ltb x hi') l = true.
Proof.
  intros Hle. induction l as [| x rest IH]; [reflexivity |].
  simpl. intros Hall. apply andb_prop in Hall as [Hx Hrest].
  rewrite (IH Hrest), andb_true_r.
  apply Nat.ltb_lt in Hx. apply Nat.ltb_lt. lia.
Qed.

Lemma stages_app (t1 t2 : list event) :
  stages (t1 ++ t2) = stages t1 ++ stages t2.
Proof. apply flat_map_app. Qed.

Lemma staged_ret lo hi {A} (a : A) : staged lo hi (ret a).
Proof. now intros w. Qed.

Lemma staged_raise lo hi {A} (e : exn) : staged lo hi (raise (A := A) e).
Proof. now intros w. Qed.

Lemma staged_time lo hi : staged lo hi time.
Proof. now intros w. Qed.

Lemma staged_emit lo hi (e : event) :
  call_stage e = None -> staged lo hi (emit e).
Proof. intros He w. unfold stages. simpl. now rewrite He. Qed.

Lemma staged_ext lo hi {X} (c : call X) (s : nat) :
  call_stage (Ecall c) = Some s -> lo <= s -> s < hi -> staged lo hi (ext c).
Proof.
  intros Hs Hlo Hhi w. unfold ext, events_of, stages.
  destruct (handle c w) as [w' r]. cbn [fst snd flat_map].
  rewrite Hs. simpl.
  apply Nat.leb_le in Hlo. apply Nat.ltb_lt in Hhi. now rewrite Hlo, Hhi.
Qed.

Lemma staged_bind lo mid hi {A B} (m : M A) (f : A -> M B) :
  lo <= mid -> mid <= hi ->
  staged lo mid m -> (forall a, staged mid hi (f a)) ->
  staged lo hi (bind m f).
Proof.
  intros Hlo Hhi Hm Hf w. rewrite events_bind, stages_app.
  destruct (Hm w) as [Hinc Hbelow].
  destruct (result_of (m w)) as [e | a].
  - rewrite app_nil_r. split; [exact Hinc |].
    now apply (below_weaken _ Hhi).
  - destruct (Hf a (world_of (m w))) as [Hinc' Hbelow'].
    split.
    + now apply (increasing_from_app _ _ Hlo).
    + rewrite forallb_app, Hbelow'.
      now rewrite (below_weaken _ Hhi Hbelow).
Qed.

End Order.

Arguments staged_bind {_} lo mid hi {A B} m f _ _ _ _.

(** One step of a program whose calls all happen in the first component
    of a bind at stage [n .. n]: the rest starts at [n + 1]. *)
Ltac staged_leaf :=
  repeat match goal with
         | |- staged _ _ (if ?b then _ else _) => destruct b
         | |- staged _ _ (match ?x with _ => _ end) => destruct x
         end;
  first
    [ apply staged_ret
    | apply staged_raise
    | apply staged_time
    | apply staged_emit; reflexivity
    | eapply staged_ext; [reflexivity | simpl; lia | simpl; lia] ].

Ltac staged_then n :=
  apply (staged_bind _ n _); [lia | lia | | ].

Section PipelineOrder.
Context `{Types} `{!Constants} `{!Runtime}.

Lemma redetection_staged dp dt hi :
  0 < hi ->
  staged 0 hi
    (if negb (truthy dt)
     then k <- ext (check_data_type dp) ;; ret (Some (kind_const k))
     else ret dt).
Proof.
  intros Hhi. destruct (negb (truthy dt)); [| apply staged_ret].
  staged_then hi; [| intros k]; staged_leaf.
Qed.

Lemma no_redetection_staged dp dt lo hi :
  truthy dt = true ->
  staged lo hi
    (if negb (truthy dt)
     then k <- ext (check_data_type dp) ;; ret (Some (kind_const k))
     else ret dt).
Proof. intros ->. apply staged_ret. Qed.

Lemma data_handling_staged dp dn dt pre : staged 0 3 (data_handling dp dn dt pre).
Proof.
  unfold data_handling, enter.
  staged_then 0; [staged_leaf | intros _].
  staged_then 1; [apply redetection_staged; lia | intros data_type].
  staged_then 2; [staged_leaf | intros counts].
  staged_then 3; [| intros counts_norm]; staged_leaf.
Qed.

Lemma data_handling_staged_typed dp dn dt pre :
  truthy dt = true -> staged 1 3 (data_handling dp dn dt pre).
Proof.
  intros Ht. unfold data_handling, enter.
  staged_then 1; [staged_leaf | intros _].
  staged_then 1; [now apply no_redetection_staged | intros data_type].
  staged_then 2; [staged_leaf | intros counts].
  staged_then 3; [| intros counts_norm]; staged_leaf.
Qed.

Lemma computing_mir_activity_staged cn rp ml cpus sp dbg :
  staged 3 6 (computing_mir_activity cn rp ml cpus sp dbg).
Proof.
  unfold computing_mir_activity, enter, logging_info.
  staged_then 3; [staged_leaf | intros _].
  staged_then 4; [staged_leaf | intros n].
  staged_then 4; [staged_leaf | intros _].
  staged_then 5; [staged_leaf | intros [mti l]].
  staged_then 5; [staged_leaf | intros start].
  staged_then 6; [staged_leaf | intros pv].
  staged_then 6; [staged_leaf | intros stop].
  staged_then 6; [| intros _]; staged_leaf.
Qed.

Lemma spatial_staged_typed dp cn pv ml rp dn dt fig th :
  truthy dt = true ->
  staged 6 10 (mir_post_processing_spatial dp cn pv ml rp dn dt fig th).
Proof.
  intros Ht. unfold mir_post_processing_spatial, enter, logging_info.
  staged_then 6; [staged_leaf | intros _].
  staged_then 6; [now apply no_redetection_staged | intros data_type].
  staged_then 6; [staged_leaf | intros _].
  staged_then 6; [staged_leaf | intros _].
  staged_then 7; [staged_leaf | intros first].
  staged_then 8; [staged_leaf | intros ranking].
  staged_then 9; [| intros figures]; staged_leaf.
Qed.

Lemma sc_staged_typed dp c pv ml rp dn dt fig pops :
  truthy dt = true ->
  staged 6 10 (mir_post_processing_sc dp c pv ml rp dn dt fig pops).
Proof.
  intros Ht. unfold mir_post_processing_sc, enter, logging_info.
  staged_then 6; [staged_leaf | intros _].
  staged_then 6; [now apply no_redetection_staged | intros data_type].
  staged_then 6; [staged_leaf | intros _].
  staged_then 6; [staged_leaf | intros _].
  staged_then 7; [staged_leaf | intros first].
  staged_then 8; [staged_leaf | intros ranking].
  staged_then 9; [| intros figures]; staged_leaf.
Qed.

(** X3: the collaborator calls of a run of [compute] come in pipeline
    order, each stage at most once: detection, loading, normalization,
    count of processing units, catalog, scoring, then coordinates or
    embedding, ranking, figure selection and drawing.  No stage is
    repeated or revisited, whatever the collaborators answer. *)
Theorem compute_calls_in_pipeline_order :
  forall dp dn ml cpus rp sp fig pre th pops dbg (w : World),
    increasing_from 0
      (stages (events_of (compute dp dn ml cpus rp sp fig pre th pops dbg w)))
    = true.
Proof.
  intros dp dn ml cpus rp sp fig pre th pops dbg w.
  enough (Hst : staged 0 10 (compute dp dn ml cpus rp sp fig pre th pops dbg))
    by apply Hst.
  unfold compute, enter, logging_info, logging_debug, logging_set_verbosity.
  staged_then 0; [staged_leaf | intros _].
  staged_then 0; [| intros _].
  { destruct (truthy (dbg ?: Some false)); [| staged_leaf].
    staged_then 0; [| intros _]; staged_leaf. }
  do 3 (staged_then 0; [staged_leaf | intros _]).
  staged_then 1; [staged_leaf | intros k].
  staged_then 3;
    [apply data_handling_staged_typed, truthy_kind_const | intros [cn c]].
  staged_then 6; [apply computing_mir_activity_staged | intros [l pv]].
  staged_then 10; [| intros _; staged_leaf].
  destruct (py_eq (kind_const k) _DATA_TYPE_SPATIAL);
    [apply spatial_staged_typed | apply sc_staged_typed];
    apply truthy_kind_const.
Qed.

End PipelineOrder.

(** ** Worker counts that are not positive *)

Section WorkerCountEdges.
Context `{Types} `{!Constants} `{!Runtime}.

(** X4: a worker count of zero counts as no worker count: the scoring
    engine is invoked with the answer of [mp.cpu_count()].  Any other
    count, a negative one included, reaches the engine unchanged, and
    [mp.cpu_count()] is not called. *)
Theorem computing_mir_activity_zero_or_negative_workers :
  forall cn rp ml sp dbg (w : World),
    let species := sp ?: Some _SPECIES_HOMO_SAPIENS in
    let debug := dbg ?: Some false in
    (forall n w1 w2 mti L,
        handle cpu_count w = (w1, inr n) ->
        handle (mir_data_loading ml species debug) w1 = (w2, inr (mti, L)) ->
        engine_cpus
          (events_of (computing_mir_activity cn rp ml (Some 0%Z) sp dbg w))
        = [n]) /\
    (forall k w2 mti L,
        k <> 0%Z ->
        handle (mir_data_loading ml species debug) w = (w2, inr (mti, L)) ->
        let t := events_of (computing_mir_activity cn rp ml (Some k) sp dbg w) in
        engine_cpus t = [k] /\ n_cpu_count t = 0).
Proof.
  intros. subst species debug. split.
  - intros n w1 w2 mti L Hn Hload.
    unfold computing_mir_activity, enter, logging_info.
    change (truthy 0%Z) with false. cbv iota.
    rewrite events_emit_bind, events_ext_bind, Hn.
    cbn [fst snd].
    rewrite events_emit_bind, events_ext_bind, Hload.
    cbn [fst snd].
    rewrite events_bind. cbn [time events_of result_of world_of fst snd app].
    rewrite events_ext_bind.
    destruct (handle _ w2) as [w3 [e | pv]]; reflexivity.
  - intros k w2 mti L Hk Hload t. subst t.
    unfold computing_mir_activity, enter, logging_info.
    rewrite events_emit_bind.
    assert (Ht : truthy k = true).
    { unfold truthy, Truthy_int.
      destruct (Z.eqb_spec k 0); [contradiction | reflexivity]. }
    rewrite Ht, events_bind.
    cbn [ret events_of result_of world_of fst snd app].
    rewrite events_emit_bind, events_ext_bind, Hload.
    cbn [fst snd].
    rewrite events_bind. cbn [time events_of result_of world_of fst snd app].
    rewrite events_ext_bind.
    destruct (handle _ w2) as [w3 [e | pv]]; split; reflexivity.
Qed.

End WorkerCountEdges.

(** ** What the scoring step returns *)

Section ScoredList.
Context `{Types} `{!Constants} `{!Runtime}.

(** X5: when [computing_mir_activity] returns a list and a table, the
    list is the one [mir_data_loading] resolved (not the caller's), it is
    the list the one engine call of the run scored, on the given counts
    and results path, and the table is what that call returned. *)
Theorem computing_mir_activity_returns_what_it_scored :
  forall cn rp ml cpus sp dbg (w : World) L pv,
    let species := sp ?: Some _SPECIES_HOMO_SAPIENS in
    let debug := dbg ?: Some false in
    let r := computing_mir_activity cn rp ml cpus sp dbg w in
    result_of r = inr (L, pv) ->
    engine_lists (events_of r) = [L] /\
    exists w1 w2 mti n,
      handle (mir_data_loading ml species debug) w1 = (w2, inr (mti, L)) /\
      handle (compute_mir_activity cn L mti rp n debug) w2 =
        (world_of r, inr pv).
Proof.
  intros cn rp ml cpus sp dbg w L pv species debug r. subst r species debug.
  unfold computing_mir_activity, enter, logging_info, bind, emit, time, ret,
    ext, result_of, world_of, events_of.
  destruct cpus as [k |]; [destruct (truthy k) |];
    repeat (match goal with
            | |- context [handle ?c ?w0] =>
                destruct (handle c w0) as [?w [?e | ?x]] eqn:?Hcall
            end;
            try match goal with
                | x : (_ * _)%type |- _ => destruct x
                end;
            simpl);
    try discriminate;
    (intros Heq; inversion Heq; subst; split;
     [reflexivity | do 4 eexists; split; eassumption]).
Qed.

End ScoredList.

(** ** What the loading step returns *)

Section LoadedTables.
Context `{Types} `{!Constants} `{!Runtime}.

Lemma ends_with_cons {A} (e x : A) (l : list A) :
  (exists t, l = t ++ [x]) -> exists t, e :: l = t ++ [x].
Proof. intros (t & ->). now exists (e :: t). Qed.

Lemma ends_with_last {A} (x : A) : exists t, [x] = t ++ [x].
Proof. now exists []. Qed.

(** X6: when [data_handling] returns [(counts_norm, counts)], the run
    made exactly one loader call, [counts] is what that loader returned,
    [counts_norm] is what [normalize_counts(counts)] returned, and that
    normalization is the last thing the run did. *)
Theorem data_handling_returns_normalized_and_raw :
  forall dp dn dt p (w : World) counts_norm counts,
    let r := data_handling dp dn dt p w in
    result_of r = inr (counts_norm, counts) ->
    (exists t, events_of r = t ++ [Ecall (normalize_counts counts)]) /\
    exists (loader : call DataFrame) w1 w2,
      loader_calls (events_of r) = [Ecall loader] /\
      handle loader w1 = (w2, inr counts) /\
      handle (normalize_counts counts) w2 = (world_of r, inr counts_norm).
Proof.
  intros dp dn dt p w cn c r. subst r.
  unfold data_handling, enter, bind, emit, ret, ext, result_of, world_of,
    events_of.
  destruct (negb (truthy dt));
    [destruct (handle (check_data_type dp) w) as [w0 [e | k]] eqn:Hk; simpl;
     [discriminate |]
    | simpl];
    repeat match goal with
           | |- context [if ?b then _ else _] => destruct b
           end;
    repeat (match goal with
            | |- context [handle ?c ?w0] =>
                destruct (handle c w0) as [?w [?e | ?x]] eqn:?Hcall
            end; simpl);
    try discriminate;
    (intros Heq; inversion Heq; subst; split;
     [ repeat first [ apply ends_with_last | apply ends_with_cons ]
     | do 3 eexists; split; [reflexivity | split; eassumption] ]).
Qed.

End LoadedTables.

(** ** The guard compares objects *)

Section IdentityGuard.
Context `{Types} `{!Constants} `{!Runtime}.

Lemma given_type_resolves dp (o : str_obj) (w : World) :
  truthy o = true -> resolved_data_type dp (Some o) w = Some (w, [], o).
Proof. intros Ht. unfold resolved_data_type. now rewrite Ht. Qed.

(** X7: the guard of a postprocessor tests identity ([is not]), not
    equality.  A non-empty [data_type] that is not the constant object of
    the required type is rejected with [UsageError] before any
    collaborator is called, also when it spells the required type; the
    constant object itself passes, and the run goes on to its first
    collaborator call. *)
Theorem postprocessor_guard_is_by_identity :
  forall dp cn pv ml rp dn o fig th pops (w : World),
    truthy o = true ->
    (py_is o _DATA_TYPE_SPATIAL = false ->
     mir_post_processing_spatial dp cn pv ml rp dn (Some o) fig th w =
     (w,
      [Eenter (f_mir_post_processing_spatial dp cn pv ml rp dn (Some o)
                 (fig ?: Some _DRAW_TOP_10) (th ?: Some _ACTIVITY_THRESH))],
      inl (UsageError ["No spatial data was found for post-processing in %s";
                       dp]))) /\
    (py_is o _DATA_TYPE_SINGLE_CELL = false ->
     mir_post_processing_sc dp cn pv ml rp dn (Some o) fig pops w =
     (w,
      [Eenter (f_mir_post_processing_sc dp cn pv ml rp dn (Some o)
                 (fig ?: Some _DRAW_TOP_10) (pops ?: None))],
      inl (UsageError ["No scRNAseq data was found for post-processing in %s";
                       dp]))) /\
    (exists rest,
        events_of (mir_post_processing_spatial dp cn pv ml rp dn
                     (Some _DATA_TYPE_SPATIAL) fig th w) =
        Eenter (f_mir_post_processing_spatial dp cn pv ml rp dn
                  (Some _DATA_TYPE_SPATIAL)
                  (fig ?: Some _DRAW_TOP_10) (th ?: Some _ACTIVITY_THRESH))
        :: Elog INFO "Generating activity map figures" []
        :: Ecall (get_spatial_coors dp cn) :: rest) /\
    (exists rest,
        events_of (mir_post_processing_sc dp cn pv ml rp dn
                     (Some _DATA_TYPE_SINGLE_CELL) fig pops w) =
        Eenter (f_mir_post_processing_sc dp cn pv ml rp dn
                  (Some _DATA_TYPE_SINGLE_CELL)
                  (fig ?: Some _DRAW_TOP_10) (pops ?: None))
        :: Elog INFO "Single cell post processing" []
        :: Ecall (generate_umap cn pv (pops ?: None)) :: rest).
Proof.
  intros dp cn pv ml rp dn o fig th pops w Ht.
  pose proof (redetection_run _ _ _ (given_type_resolves dp o w Ht)) as Hrun.
  repeat split.
  - intros Hne.
    unfold mir_post_processing_spatial, enter.
    rewrite emit_bind, (bind_returns _ _ _ Hrun).
    unfold opt_is. rewrite Hne. cbn [negb].
    now rewrite raise_bind.
  - intros Hne.
    unfold mir_post_processing_sc, enter.
    rewrite emit_bind, (bind_returns _ _ _ Hrun).
    unfold opt_is. rewrite Hne. cbn [negb].
    now rewrite raise_bind.
  - pose proof (redetection_run _ _ _
                  (given_type_resolves dp _DATA_TYPE_SPATIAL w eq_refl))
      as Hconst.
    unfold mir_post_processing_spatial, enter, logging_info.
    rewrite events_emit_bind, (bind_returns _ _ _ Hconst).
    cbn [events_of fst snd app].
    change (opt_is (Some _DATA_TYPE_SPATIAL) _DATA_TYPE_SPATIAL) with true.
    cbn [negb]. rewrite events_bind.
    cbn [ret events_of result_of world_of fst snd app].
    rewrite events_emit_bind, events_ext_bind. eexists. reflexivity.
  - pose proof (redetection_run _ _ _
                  (given_type_resolves dp _DATA_TYPE_SINGLE_CELL w eq_refl))
      as Hconst.
    unfold mir_post_processing_sc, enter, logging_info.
    rewrite events_emit_bind, (bind_returns _ _ _ Hconst).
    cbn [events_of fst snd app].
    change (opt_is (Some _DATA_TYPE_SINGLE_CELL) _DATA_TYPE_SINGLE_CELL)
      with true.
    cbn [negb]. rewrite events_bind.
    cbn [ret events_of result_of world_of fst snd app].
    rewrite events_emit_bind, events_ext_bind. eexists. reflexivity.
Qed.

End IdentityGuard.

(** ** Required flags and the start of [main] *)

Section RequiredFlags.
Context `{Types} `{!Constants} `{!Runtime}.

Lemma assign_keeps_data_path (F : flag_values) (a : assignment) :
  sets_data_path a = false ->
  FLAGS_data_path (assign F a) = FLAGS_data_path F.
Proof. destruct F, a; simpl; intros Ha; (reflexivity || discriminate). Qed.

Lemma assign_keeps_dataset_name (F : flag_values) (a : assignment) :
  sets_dataset_name a = false ->
  FLAGS_dataset_name (assign F a) = FLAGS_dataset_name F.
Proof. destruct F, a; simpl; intros Ha; (reflexivity || discriminate). Qed.

Lemma no_data_path_flag (argv : list assignment) :
  forall F : flag_values,
    forallb (fun a => negb (sets_data_path a)) argv = true ->
    FLAGS_data_path (fold_left assign argv F) = FLAGS_data_path F.
Proof.
  induction argv as [| a argv IH]; intros F Hall; [reflexivity |].
  simpl in Hall. apply andb_prop in Hall as [Ha Hrest].
  simpl. rewrite (IH _ Hrest).
  apply assign_keeps_data_path. now destruct (sets_data_path a).
Qed.

Lemma no_dataset_name_flag (argv : list assignment) :
  forall F : flag_values,
    forallb (fun a => negb (sets_dataset_name a)) argv = true ->
    FLAGS_dataset_name (fold_left assign argv F) = FLAGS_dataset_name F.
Proof.
  induction argv as [| a argv IH]; intros F Hall; [reflexivity |].
  simpl in Hall. apply andb_prop in Hall as [Ha Hrest].
  simpl. rewrite (IH _ Hrest).
  apply assign_keeps_dataset_name. now destruct (sets_dataset_name a).
Qed.

(** X8: a command line that gives no [data_path], or no [dataset_name],
    is rejected by the flag validation ([mark_flag_as_required]): the
    program ends with the flags error, whose messages name the missing
    flag, before [main] is called; it has no event and leaves the world
    as it was. *)
Theorem app_run_rejects_missing_required_flags :
  forall (argv : list assignment) (w : World),
    forallb (fun a => negb (sets_data_path a)) argv = true \/
    forallb (fun a => negb (sets_dataset_name a)) argv = true ->
    exists messages,
      app_run argv w = (w, [], inl (IllegalFlagValueError messages)) /\
      (forallb (fun a => negb (sets_data_path a)) argv = true ->
       In ("data_path",
           ["Flag --data_path must have a value other than None."]) messages) /\
      (forallb (fun a => negb (sets_dataset_name a)) argv = true ->
       In ("dataset_name",
           ["Flag --dataset_name must have a value other than None."])
          messages).
Proof.
  intros argv w Hmissing.
  exists (validate_all_flags (parse_flags argv)).
  assert (Hdp : forallb (fun a => negb (sets_data_path a)) argv = true ->
                FLAGS_data_path (parse_flags argv) = None).
  { intros Hno. unfold parse_flags. now rewrite no_data_path_flag. }
  assert (Hdn : forallb (fun a => negb (sets_dataset_name a)) argv = true ->
                FLAGS_dataset_name (parse_flags argv) = None).
  { intros Hno. unfold parse_flags. now rewrite no_dataset_name_flag. }
  unfold app_run, validate_all_flags, validators.
  cbn [filter map checker negb].
  destruct (str_in (FLAGS_species (parse_flags argv)) _SUPPORTED_SPECIES);
    destruct (str_in (FLAGS_miR_figures (parse_flags argv)) _SUPPORTED_DRAW);
    cbn [negb map flag_name message];
    destruct (FLAGS_data_path (parse_flags argv)) as [dp |];
    destruct (FLAGS_dataset_name (parse_flags argv)) as [dn |];
    cbn [is_not_None negb map flag_name message];
    try (destruct Hmissing as [Hno | Hno];
         [specialize (Hdp Hno) | specialize (Hdn Hno)]; discriminate);
    (split; [reflexivity |]);
    (split; intros Hno;
     [ try (specialize (Hdp Hno); discriminate)
     | try (specialize (Hdn Hno); discriminate) ]);
    simpl; auto 10.
Qed.

(** X9: [app.run(main)] reaches [compute] exactly when the four
    validators pass: supported species, supported [miR_figures], and both
    required flags given.  [compute] is then called with the values of
    the flags, every optional parameter given explicitly, and the program
    is [main]'s invocation followed by that call; [main]'s failure on a
    missing path or name is out of reach.  When a validator fails the
    program ends with the flags error and no event. *)
Theorem app_run_computes_iff_flags_valid :
  forall (argv : list assignment) (w : World),
    let FLAGS := parse_flags argv in
    let valid :=
      str_in (FLAGS_species FLAGS) _SUPPORTED_SPECIES &&
      str_in (FLAGS_miR_figures FLAGS) _SUPPORTED_DRAW &&
      is_not_None (FLAGS_dataset_name FLAGS) &&
      is_not_None (FLAGS_data_path FLAGS) in
    (valid = true ->
     exists data_path dataset_name,
       FLAGS_data_path FLAGS = Some data_path /\
       FLAGS_dataset_name FLAGS = Some dataset_name /\
       app_run argv w =
       let r :=
         compute data_path dataset_name (FLAGS_miR_list FLAGS)
           (FLAGS_cpus FLAGS) (FLAGS_results_path FLAGS)
           (given (Some (FLAGS_species FLAGS)))
           (given (Some (FLAGS_miR_figures FLAGS)))
           (given (Some (FLAGS_preprocess FLAGS)))
           (given (Some (FLAGS_thresh FLAGS)))
           (given (FLAGS_populations FLAGS))
           (given (Some (FLAGS_debug FLAGS))) w in
       (world_of r, Eenter f_main :: events_of r, result_of r)) /\
    (valid = false ->
     exists messages,
       messages <> [] /\
       app_run argv w = (w, [], inl (IllegalFlagValueError messages))).
Proof.
  intros argv w FLAGS valid. subst valid.
  unfold app_run. fold FLAGS.
  unfold validate_all_flags, validators. cbn [filter map checker negb].
  destruct (str_in (FLAGS_species FLAGS) _SUPPORTED_SPECIES);
    destruct (str_in (FLAGS_miR_figures FLAGS) _SUPPORTED_DRAW);
    cbn [negb map flag_name message andb];
    destruct (FLAGS_dataset_name FLAGS) as [dn |] eqn:Hdn;
    destruct (FLAGS_data_path FLAGS) as [dp |] eqn:Hdp;
    cbn [is_not_None negb map flag_name message andb];
    (split; [intros Hv | intros Hv]); try discriminate;
    try (eexists; split; [| reflexivity]; discriminate).
  exists dp, dn. repeat split.
  unfold main, enter. rewrite emit_bind. now rewrite Hdp, Hdn.
Qed.

End RequiredFlags.

(** ** The shape of the results path *)

Section ResultsPathShape.
Context `{Types} `{!Constants} `{!Runtime}.

Lemma os_path_join_shape (a b : string) :
  (String.prefix "/" b = true -> os_path_join a b = b) /\
  (String.prefix "/" b = false ->
   exists sep, (sep = "" \/ sep = "/") /\
               os_path_join a b = (a ++ sep ++ b)%string).
Proof.
  unfold os_path_join. split; intros ->.
  - reflexivity.
  - destruct (negb (truthy a) || endswith_sep a).
    + exists "". split; [now left | reflexivity].
    + exists "/". split; [now right | reflexivity].
Qed.

#[local] Hint Resolve data_handling_results_path
  computing_mir_activity_results_path spatial_results_path sc_results_path
  : emits.

Lemma compute_results_path_events dp dn ml cpus rp sp fig pre th pops dbg
    (w : World) :
  let t := events_of (compute dp dn ml cpus rp sp fig pre th pops dbg w) in
  In (Elog INFO "Results path: %s" [a_str (spec_results_path dp dn rp)]) t /\
  forallb (uses_results_path (spec_results_path dp dn rp)) t = true.
Proof.
  intros t. subst t. unfold compute.
  rewrite results_path_as_specified.
  unfold enter, logging_info, logging_debug, logging_set_verbosity.
  rewrite events_emit_bind.
  destruct (truthy (dbg ?: Some false)); rewrite ?bind_assoc;
    rewrite !events_emit_bind, events_ext_bind;
    (split; [simpl; auto 10 |]);
    (destruct (handle (check_data_type dp) w) as [w1 [e | k]]; simpl;
     rewrite String.eqb_refl; [reflexivity |]);
    apply emits_only_at; emits.
Qed.

(** X10: the results path of a run of [compute] (the one it logs and
    hands to every call that takes one) lies under the given results
    path and ends with the dataset name; without a results path (or with
    an empty one) it is [results] under the data path.  A dataset name
    that starts with [/] replaces the results path altogether. *)
Theorem compute_results_path_shape :
  forall dp dn ml cpus rp sp fig pre th pops dbg (w : World),
    let t := events_of (compute dp dn ml cpus rp sp fig pre th pops dbg w) in
    exists p,
      In (Elog INFO "Results path: %s" [a_str p]) t /\
      forallb (uses_results_path p) t = true /\
      (forall q, rp = Some q -> q <> "" ->
         (String.prefix "/" dn = true -> p = dn) /\
         (String.prefix "/" dn = false ->
          exists sep, (sep = "" \/ sep = "/") /\
                      p = (q ++ sep ++ dn)%string)) /\
      (rp = None \/ rp = Some "" ->
       exists sep, (sep = "" \/ sep = "/") /\
                   p = (dp ++ sep ++ "results")%string).
Proof.
  intros dp dn ml cpus rp sp fig pre th pops dbg w t.
  exists (spec_results_path dp dn rp).
  destruct (compute_results_path_events dp dn ml cpus rp sp fig pre th pops
              dbg w) as [Hlog Huse].
  split; [exact Hlog |]. split; [exact Huse |]. split.
  - intros q -> Hq. unfold spec_results_path.
    apply String.eqb_neq in Hq. rewrite Hq.
    apply os_path_join_shape.
  - intros Hnone.
    assert (Hp : spec_results_path dp dn rp = os_path_join dp "results").
    { destruct Hnone as [-> | ->]; reflexivity. }
    rewrite Hp. now apply os_path_join_shape.
Qed.

End ResultsPathShape.

(** ** When the data type is detected again *)

Section Redetection.
Context `{Types} `{!Constants} `{!Runtime}.

Lemma events_redetect_bind {B} dp (dt : option str_obj)
    (f : option str_obj -> M B) (w : World) :
  truthy dt = false ->
  (forall a, emits_only not_check_data_type (f a)) ->
  n_check_data_type
    (events_of
       (bind (if negb (truthy dt)
              then k <- ext (check_data_type dp) ;; ret (Some (kind_const k))
              else ret dt) f w)) = 1.
Proof.
  intros Ht Hf. rewrite Ht. cbn [negb].
  rewrite bind_assoc, events_ext_bind, n_check_data_type_cons.
  cbn [is_check_data_type Nat.add]. f_equal.
  destruct (snd (handle (check_data_type dp) w)) as [e | k]; [reflexivity |].
  apply n_check_data_type_none, emits_only_at.
  apply emits_only_bind; [apply emits_only_ret | apply Hf].
Qed.

(** X11: [data_handling] and the two postprocessors call
    [check_data_type] exactly when the [data_type] they are given is
    missing, that is [None] or an empty string, and then exactly once;
    given a non-empty data type they never call it. *)
Theorem redetection_iff_data_type_missing :
  forall dp dn cn pv ml rp dt p fig th pops (w : World),
    let expected := if truthy dt then 0 else 1 in
    n_check_data_type (events_of (data_handling dp dn dt p w)) = expected /\
    n_check_data_type
      (events_of (mir_post_processing_spatial dp cn pv ml rp dn dt fig th w))
    = expected /\
    n_check_data_type
      (events_of (mir_post_processing_sc dp cn pv ml rp dn dt fig pops w))
    = expected.
Proof.
  intros dp dn cn pv ml rp dt p fig th pops w expected. subst expected.
  destruct (truthy dt) eqn:Ht.
  - repeat split; apply n_check_data_type_none, emits_only_at.
    + now apply data_handling_keeps_type.
    + now apply spatial_keeps_type.
    + now apply sc_keeps_type.
  - repeat split.
    + unfold data_handling, enter.
      rewrite events_emit_bind, n_check_data_type_cons.
      cbn [is_check_data_type Nat.add].
      apply events_redetect_bind; [exact Ht | intros a; emits].
    + unfold mir_post_processing_spatial, enter.
      rewrite events_emit_bind, n_check_data_type_cons.
      cbn [is_check_data_type Nat.add].
      apply events_redetect_bind; [exact Ht | intros a; emits].
    + unfold mir_post_processing_sc, enter.
      rewrite events_emit_bind, n_check_data_type_cons.
      cbn [is_check_data_type Nat.add].
      apply events_redetect_bind; [exact Ht | intros a; emits].
Qed.

End Redetection.

(** ** The options on their way to the collaborators *)

Section Options.
Context `{Types} `{!Constants} `{!Runtime}.

Lemma always_ret P {A} (a : A) : always P (ret a).
Proof. intros w. constructor. Qed.

Lemma always_raise P {A} (e : exn) : always P (raise (A := A) e).
Proof. intros w. constructor. Qed.

Lemma always_time P : always P time.
Proof. intros w. constructor. Qed.

Lemma always_emit (P : event -> Prop) (e : event) : P e -> always P (emit e).
Proof. intros He w. now repeat constructor. Qed.

Lemma always_ext (P : event -> Prop) {X} (c : call X) :
  P (Ecall c) -> always P (ext c).
Proof.
  intros Hc w. unfold ext, events_of.
  destruct (handle c w) as [w' r]. now repeat constructor.
Qed.

Lemma always_bind P {A B} (m : M A) (f : A -> M B) :
  always P m -> (forall a, always P (f a)) -> always P (bind m f).
Proof.
  intros Hm Hf w. rewrite events_bind. apply Forall_app. split.
  - apply Hm.
  - destruct (result_of (m w)); [constructor | apply Hf].
Qed.

End Options.

Ltac always_step :=
  first
    [ apply always_ret
    | apply always_raise
    | apply always_time
    | apply always_emit; simpl; auto
    | apply always_ext; simpl; auto
    | apply always_bind; [ | intros ? ]
    | match goal with
      | |- always _ (if ?b then _ else _) => destruct b
      | |- always _ (match ?x with _ => _ end) => destruct x
      | |- always _ (let (_, _) := ?x in _) => destruct x
      end ].

Ltac always_tac := repeat always_step.

Section OptionsOfCompute.
Context `{Types} `{!Constants} `{!Runtime}.

Lemma data_handling_carries dp dn sp fig th pops dbg dt pre :
  always (carries_options dp dn sp fig th pops dbg)
    (data_handling dp dn dt pre).
Proof. unfold data_handling, enter. always_tac. Qed.

Lemma computing_mir_activity_carries dp dn sp fig th pops dbg cn rp ml cpus :
  always (carries_options dp dn sp fig th pops dbg)
    (computing_mir_activity cn rp ml cpus (given sp) (given dbg)).
Proof. unfold computing_mir_activity, enter, logging_info. always_tac. Qed.

Lemma spatial_carries dp dn sp fig th pops dbg cn pv ml rp dt :
  always (carries_options dp dn sp fig th pops dbg)
    (mir_post_processing_spatial dp cn pv ml rp dn dt (given fig) (given th)).
Proof. unfold mir_post_processing_spatial, enter, logging_info. always_tac. Qed.

Lemma sc_carries dp dn sp fig th pops dbg c pv ml rp dt :
  always (carries_options dp dn sp fig th pops dbg)
    (mir_post_processing_sc dp c pv ml rp dn dt (given fig) (given pops)).
Proof. unfold mir_post_processing_sc, enter, logging_info. always_tac. Qed.

(** X12: [compute] hands its options on unchanged.  In every run, each
    collaborator call that takes the data path, the dataset name, the
    species, the debug flag, the figure selection, the threshold or the
    populations carries the value [compute] was given (or the default of
    [compute]'s signature when the argument is left out), and the
    verbosity is set to DEBUG exactly when the debug flag is true. *)
Theorem compute_hands_options_on :
  forall dp dn ml cpus rp sp fig pre th pops dbg (w : World),
    Forall
      (carries_options dp dn
         (sp ?: Some _SPECIES_HOMO_SAPIENS) (fig ?: Some _DRAW_TOP_10)
         (th ?: Some _ACTIVITY_THRESH) (pops ?: None) (dbg ?: Some false))
      (events_of (compute dp dn ml cpus rp sp fig pre th pops dbg w)).
Proof.
  intros dp dn ml cpus rp sp fig pre th pops dbg.
  change (always
            (carries_options dp dn
               (sp ?: Some _SPECIES_HOMO_SAPIENS) (fig ?: Some _DRAW_TOP_10)
               (th ?: Some _ACTIVITY_THRESH) (pops ?: None)
               (dbg ?: Some false))
            (compute dp dn ml cpus rp sp fig pre th pops dbg)).
  unfold compute, enter, logging_info, logging_debug, logging_set_verbosity.
  apply always_bind; [always_tac | intros _].
  apply always_bind; [| intros _].
  { destruct (truthy (dbg ?: Some false)) eqn:Hd.
    - apply always_bind; [| intros _; always_tac].
      apply always_emit. simpl. now rewrite Hd.
    - apply always_emit. simpl. now rewrite Hd. }
  do 3 (apply always_bind; [always_tac | intros _]).
  apply always_bind; [always_tac | intros k].
  apply always_bind; [apply data_handling_carries | intros [cn c]].
  apply always_bind; [apply computing_mir_activity_carries | intros [l pv]].
  apply always_bind; [| intros _; always_tac].
  destruct (py_eq (kind_const k) _DATA_TYPE_SPATIAL);
    [apply spatial_carries | apply sc_carries].
Qed.

End OptionsOfCompute.

(** ** What a postprocessor that returns has done *)

Section Postprocessed.
Context `{Types} `{!Constants} `{!Runtime}.

Ltac run_cases :=
  repeat match goal with
         | |- context [if ?b then _ else _] => destruct b
         end;
  repeat (match goal with
          | |- context [handle ?c ?w0] =>
              destruct (handle c w0) as [?w [?e | ?x]] eqn:?Hcall
          end; simpl;
          repeat match goal with
                 | |- context [if ?b then _ else _] => destruct b
                 end);
  try discriminate.

(** X13: when a postprocessor returns, its four collaborators have
    answered in a chain: the ranking is computed from the given p-values
    (for spatial data with the number of rows of the coordinates just
    read as the number of spots), the figure list is selected from the
    given list with that ranking, and the drawing call receives that
    figure list, that ranking and the coordinates or the embedding of the
    same run. *)
Theorem postprocessors_chain_their_collaborators :
  forall dp cn pv ml rp dn dt fig th pops (w : World),
    let miR_figures := fig ?: Some _DRAW_TOP_10 in
    let thresh := th ?: Some _ACTIVITY_THRESH in
    let populations := pops ?: None in
    (let r := mir_post_processing_spatial dp cn pv ml rp dn dt fig th w in
     result_of r = inr tt ->
     exists coors ranking figures w1 w2 w3 w4,
       handle (get_spatial_coors dp cn) w1 = (w2, inr coors) /\
       handle (sort_activity_spatial pv thresh (shape0 coors) rp dn) w2 =
         (w3, inr ranking) /\
       handle (get_figure_list ml miR_figures ranking) w3 =
         (w4, inr figures) /\
       handle (produce_spatial_maps figures pv coors rp dn ranking) w4 =
         (world_of r, inr tt)) /\
    (let r := mir_post_processing_sc dp cn pv ml rp dn dt fig pops w in
     result_of r = inr tt ->
     exists enriched ranking figures w1 w2 w3 w4,
       handle (generate_umap cn pv populations) w1 = (w2, inr enriched) /\
       handle (sort_activity_sc pv populations) w2 = (w3, inr ranking) /\
       handle (get_figure_list ml miR_figures ranking) w3 =
         (w4, inr figures) /\
       handle (plot_sc figures enriched rp dn ranking pv populations) w4 =
         (world_of r, inr tt)).
Proof.
  intros dp cn pv ml rp dn dt fig th pops w miR_figures thresh populations.
  subst miR_figures thresh populations.
  split; intros r; subst r.
  - unfold mir_post_processing_spatial, enter, logging_info, bind, emit, ret,
      raise, ext, result_of, world_of, events_of.
    run_cases;
      (intros _; do 7 eexists; repeat split; try eassumption;
       match goal with
       | Hc : handle (produce_spatial_maps _ _ _ _ _ _) _ = (_, inr ?u) |- _ =>
           destruct u; exact Hc
       end).
  - unfold mir_post_processing_sc, enter, logging_info, bind, emit, ret,
      raise, ext, result_of, world_of, events_of.
    run_cases;
      (intros _; do 7 eexists; repeat split; try eassumption;
       match goal with
       | Hc : handle (plot_sc _ _ _ _ _ _ _) _ = (_, inr ?u) |- _ =>
           destruct u; exact Hc
       end).
Qed.

End Postprocessed.

(** * The further properties on the sample environment *)


(** Zero workers: the eight units of the sample machine; minus two
    workers: minus two. *)
Lemma computing_mir_activity_zero_or_negative_workers_sample :
  engine_cpus
    (events_of
       (@computing_mir_activity sample_types sample_constants sample_runtime
          "norm" "/out/ds1" None (Some 0%Z) omitted omitted 0%nat)) = [8%Z] /\
  engine_cpus
    (events_of
       (@computing_mir_activity sample_types sample_constants sample_runtime
          "norm" "/out/ds1" None (Some (-2)%Z) omitted omitted 0%nat))
  = [(-2)%Z].
Proof.
  destruct (@computing_mir_activity_zero_or_negative_workers sample_types
              sample_constants sample_runtime "norm" "/out/ds1" None omitted
              omitted 0%nat) as [Hzero Hother].
  split.
  - refine (Hzero 8%Z 1%nat 2%nat "mti" ["m1"; "m2"] _ _); reflexivity.
  - refine (proj1 (Hother (-2)%Z 1%nat "mti" ["m1"; "m2"] _ _));
      [discriminate | reflexivity].
Defined.

(** Without a list from the caller, the scored and returned list is the
    catalog's. *)
Lemma computing_mir_activity_returns_what_it_scored_sample :
  engine_lists
    (events_of
       (@computing_mir_activity sample_types sample_constants sample_runtime
          "norm" "/out/ds1" None None omitted omitted 0%nat))
  = [["m1"; "m2"]].
Proof.
  refine (proj1 (@computing_mir_activity_returns_what_it_scored sample_types
                   sample_constants sample_runtime "norm" "/out/ds1" None
                   None omitted omitted 0%nat ["m1"; "m2"] "pvals" _)).
  reflexivity.
Defined.

(** Single-cell data without preprocessing: the plain table, then its
    normalization. *)
Lemma data_handling_returns_normalized_and_raw_sample :
  exists t,
    events_of
      (@data_handling sample_types sample_runtime "/sc/a" "ds1" None
         (given (Some false)) 0%nat) =
    t ++ [Ecall (@normalize_counts sample_types "table:/sc/a")].
Proof.
  refine (proj1 (@data_handling_returns_normalized_and_raw sample_types
                   sample_runtime "/sc/a" "ds1" None (given (Some false))
                   0%nat "norm:table:/sc/a" "table:/sc/a" _)).
  reflexivity.
Defined.

(** Another string object that spells 'spatial' does not pass the guard
    of the spatial postprocessor. *)
Lemma postprocessor_guard_is_by_identity_sample :
  @mir_post_processing_spatial sample_types sample_constants sample_runtime
    "/visium/a" "norm" "pvals" ["m1"] "/out/ds1" "ds1"
    (Some (Str 7 "spatial")) omitted omitted 0%nat =
  (0%nat,
   [Eenter (@f_mir_post_processing_spatial sample_types "/visium/a" "norm"
              "pvals" ["m1"] "/out/ds1" "ds1" (Some (Str 7 "spatial"))
              (Some "top_10") (Some 5%Z))],
   inl (UsageError ["No spatial data was found for post-processing in %s";
                    "/visium/a"])).
Proof.
  assert (Ht : truthy (Str 7 "spatial") = true) by reflexivity.
  assert (Hother : py_is (Str 7 "spatial") _DATA_TYPE_SPATIAL = false)
    by reflexivity.
  exact (proj1 (@postprocessor_guard_is_by_identity sample_types
                  sample_constants sample_runtime "/visium/a" "norm" "pvals"
                  ["m1"] "/out/ds1" "ds1" (Str 7 "spatial") omitted omitted
                  omitted 0%nat Ht) Hother).
Defined.

(** The empty command line is rejected for its missing data path. *)
Lemma app_run_rejects_missing_required_flags_sample :
  exists messages,
    @app_run sample_types sample_constants sample_runtime [] 0%nat =
    (0%nat, [], inl (IllegalFlagValueError messages)) /\
    In ("data_path", ["Flag --data_path must have a value other than None."])
       messages.
Proof.
  assert (Hno : forallb (fun a => negb (@sets_data_path sample_types a)) []
                = true) by reflexivity.
  destruct (@app_run_rejects_missing_required_flags sample_types
              sample_constants sample_runtime [] 0%nat (or_introl Hno))
    as (messages & Hrun & Hdp & _).
  exists messages. split; [exact Hrun | exact (Hdp Hno)].
Defined.

(** A valid command line reaches [compute] with the flags' values. *)
Lemma app_run_computes_iff_flags_valid_sample :
  exists data_path dataset_name,
    FLAGS_data_path
      (@parse_flags sample_types sample_constants
         [set_data_path "/sc/a"; set_dataset_name "ds1"]) = Some data_path /\
    FLAGS_dataset_name
      (@parse_flags sample_types sample_constants
         [set_data_path "/sc/a"; set_dataset_name "ds1"]) = Some dataset_name /\
    In (Eenter (@f_compute sample_types data_path dataset_name None None None
                  (Some "homo_sapiens") (Some "top_10") (Some false)
                  (Some 5%Z) None (Some false)))
       (events_of
          (@app_run sample_types sample_constants sample_runtime
             [set_data_path "/sc/a"; set_dataset_name "ds1"] 0%nat)).
Proof.
  destruct (proj1 (@app_run_computes_iff_flags_valid sample_types
                     sample_constants sample_runtime
                     [set_data_path "/sc/a"; set_dataset_name "ds1"] 0%nat)
              eq_refl) as (dp & dn & Hdp & Hdn & Hrun).
  exists dp, dn. split; [exact Hdp |]. split; [exact Hdn |].
  rewrite Hrun. inversion Hdp. inversion Hdn. simpl. auto.
Defined.

(** A dataset name that starts with a slash is the results path. *)
Lemma compute_results_path_shape_sample :
  exists p,
    In (Elog INFO "Results path: %s" [a_str p])
       (events_of
          (@compute sample_types sample_constants sample_runtime "/sc/a"
             "/tmp/ds1" None None (Some "/out") omitted omitted omitted
             omitted omitted omitted 0%nat)) /\
    p = "/tmp/ds1".
Proof.
  destruct (@compute_results_path_shape sample_types sample_constants
              sample_runtime "/sc/a" "/tmp/ds1" None None (Some "/out")
              omitted omitted omitted omitted omitted omitted 0%nat)
    as (p & Hlog & _ & Hgiven & _).
  exists p. split; [exact Hlog |].
  assert (Hq : "/out" <> "") by discriminate.
  exact (proj1 (Hgiven "/out" eq_refl Hq) eq_refl).
Defined.

(** Spatial postprocessing of the sample spatial dataset: five spots, the
    ranking [m2, m1] selected and drawn. *)
Lemma postprocessors_chain_their_collaborators_sample :
  exists (coors : string) (ranking figures : list string) (w1 w2 w3 w4 : nat),
    sample_handle (@get_spatial_coors sample_types "/visium/a" "norm") w1 =
      (w2, inr coors) /\
    sample_handle
      (@sort_activity_spatial sample_types "pvals" (Some 5%Z)
         (Z.of_nat (String.length coors)) "/out/ds1" "ds1") w2 =
      (w3, inr ranking) /\
    sample_handle
      (@get_figure_list sample_types ["m1"; "m2"] (Some "top_10") ranking) w3 =
      (w4, inr figures) /\
    sample_handle
      (@produce_spatial_maps sample_types figures "pvals" coors "/out/ds1"
         "ds1" ranking) w4 =
      (4%nat, inr tt).
Proof.
  refine (proj1 (@postprocessors_chain_their_collaborators sample_types
                   sample_constants sample_runtime "/visium/a" "norm" "pvals"
                   ["m1"; "m2"] "/out/ds1" "ds1" (Some _DATA_TYPE_SPATIAL)
                   omitted omitted omitted 0%nat) _).
  reflexivity.
Defined.
